(** * GeminiVertexAI: the request/response adapter of gemini_app.py and its
      dashboard caller in streamlit_app.py, embedded as state-passing
      functions over an explicit process state.

    Python strings are Rocq [string]s (sequences of 8-bit characters, so a
    non-ASCII character is its UTF-8 bytes); Python floats are IEEE binary64
    values, here Rocq's primitive [float]; a [dict] whose iteration order is
    observable is an association list, any other [dict] a [gmap]. *)

From Stdlib Require Import ZArith Floats Ascii String.
From Stdlib.Strings Require Import Byte.
From stdpp Require Import base option list gmap strings pretty.

Local Open Scope string_scope.
Local Open Scope Z_scope.
Local Open Scope list_scope.
#[local] Set Warnings "-inexact-float".

(** ** Python values, exceptions and outcomes *)

(** The values that travel through [**kwargs]. *)
Inductive pyval : Type :=
| VNone
| VBool (b : bool)
| VInt (n : Z)
| VFloat (x : float)
| VStr (s : string).

(** Exception classes.  The first three derive from [BaseException] only;
    every other class derives from [Exception]. *)
Inductive exc_class : Type :=
| KeyboardInterrupt
| SystemExit
| GeneratorExit
| ValueError
| KeyError
| IndexError
| TypeError
| AttributeError
| FileNotFoundError
| IsADirectoryError
| OSError                   (* any other error of the operating system *)
| SdkError (cls : string)   (* raised inside the Vertex AI SDK or Streamlit *).

(** A raised exception: its class and [str(e)]. *)
Record exn : Type := mkExn { exc_type : exc_class; exc_str : string }.

(** [isinstance(e, Exception)] *)
Definition isinstance_Exception (e : exn) : bool :=
  match exc_type e with
  | KeyboardInterrupt | SystemExit | GeneratorExit => false
  | _ => true
  end.

(** [str(e)] *)
Definition str (e : exn) : string := exc_str e.

Inductive result (A : Type) : Type :=
| Ok (a : A)
| Raise (e : exn).
Arguments Ok {A} a.
Arguments Raise {A} e.

(** ** Strings: [repr], [lower], [rfind], slices *)

Definition hex_digit (n : N) : ascii :=
  match n with
  | 0 => "0" | 1 => "1" | 2 => "2" | 3 => "3" | 4 => "4" | 5 => "5"
  | 6 => "6" | 7 => "7" | 8 => "8" | 9 => "9" | 10 => "a" | 11 => "b"
  | 12 => "c" | 13 => "d" | 14 => "e" | _ => "f"
  end%N%char.

(** One character of [repr(s)] with [q] the enclosing quote, for a character
    of ASCII: there the escapes below are all of Python's.  Outside ASCII
    Python escapes the characters that are not printable ([\xa0] for a
    no-break space) and keeps the others; which ones are printable is a table
    of Unicode that is not embedded here, and a byte above 127 is copied.
    [repr_str s] is therefore [repr(s)] for the strings with [is_ascii s], and
    the properties that state a [repr] of an argument are stated for those. *)
Definition repr_char (q c : ascii) : string :=
  let n := N_of_ascii c in
  if Ascii.eqb c "\" then "\\"
  else if Ascii.eqb c q then String "\" (String q "")
  else if (n =? 10)%N then "\n"
  else if (n =? 13)%N then "\r"
  else if (n =? 9)%N then "\t"
  else if ((n <? 32) || (n =? 127))%N
       then String "\" (String "x" (String (hex_digit (n / 16)) (String (hex_digit (n mod 16)) "")))
  else String c "".

Fixpoint contains_char (c : ascii) (s : string) : bool :=
  match s with
  | "" => false
  | String d s' => Ascii.eqb c d || contains_char c s'
  end.

Fixpoint repr_body (q : ascii) (s : string) : string :=
  match s with
  | "" => ""
  | String c s' => repr_char q c +:+ repr_body q s'
  end.

(** [repr(s)] for a [str]: single quotes, unless the string holds a single
    quote and no double quote. *)
Definition repr_str (s : string) : string :=
  let q : ascii :=
    if contains_char "'" s && negb (contains_char "034" s) then "034"%char else "'"%char in
  String q (repr_body q s) +:+ String q "".

Fixpoint join (sep : string) (l : list string) : string :=
  match l with
  | [] => ""
  | [x] => x
  | x :: l' => x +:+ sep +:+ join sep l'
  end.


(** [repr(l)] for a list of [str]. *)
Definition repr_str_list (l : list string) : string :=
  "[" +:+ join ", " (repr_str <$> l) +:+ "]".

(** [c.lower()] on one character: ASCII capitals only.  No character outside
    ASCII lower-cases to one of the letters of the MIME table's keys. *)
Definition lower_char (c : ascii) : ascii :=
  let n := N_of_ascii c in
  if ((65 <=? n) && (n <=? 90))%N then ascii_of_N (n + 32) else c.

(** [s.lower()] *)
Fixpoint lower (s : string) : string :=
  match s with
  | "" => ""
  | String c s' => String (lower_char c) (lower s')
  end.

(** [s.rfind(c)]: the highest index of [c], or [-1]; [i] is the index of the
    head of [s]. *)
Fixpoint rfind_from (c : ascii) (s : string) (i : Z) : Z :=
  match s with
  | "" => -1
  | String d s' =>
      let r := rfind_from c s' (i + 1) in
      if r >=? 0 then r else if Ascii.eqb c d then i else -1
  end.

Definition rfind (c : ascii) (s : string) : Z := rfind_from c s 0.

(** [s[i:i+1]] for [0 <= i] *)
Definition char_at (s : string) (i : Z) : string :=
  String.substring (Z.to_nat i) 1 s.

(** [s[:i]] and [s[i:]] for [0 <= i] *)
Definition slice_to (s : string) (i : Z) : string :=
  String.substring 0 (Z.to_nat i) s.
Definition slice_from (s : string) (i : Z) : string :=
  String.substring (Z.to_nat i) (String.length s - Z.to_nat i) s.

(** ** Lists: negative indices and slices *)

(** [l[i]] *)
Definition getitem {A} (l : list A) (i : Z) : result A :=
  let n := Z.of_nat (length l) in
  let j := if i <? 0 then i + n else i in
  if (j <? 0) || (n <=? j)
  then Raise (mkExn IndexError "list index out of range")
  else match l !! Z.to_nat j with
       | Some x => Ok x
       | None => Raise (mkExn IndexError "list index out of range")
       end.

(** [l[:stop]] *)
Definition slice_upto {A} (l : list A) (stop : Z) : list A :=
  let n := Z.of_nat (length l) in
  let j := if stop <? 0 then Z.max 0 (stop + n) else Z.min stop n in
  take (Z.to_nat j) l.

(** ** Dictionaries *)

(** A [dict] with observable insertion order (unique keys). *)
Definition odict (V : Type) : Type := list (string * V).

(** [k in d] *)
Definition odict_contains {V} (d : odict V) (k : string) : bool :=
  bool_decide (k ∈ d.*1).

(** [list(d.keys())] *)
Definition odict_keys {V} (d : odict V) : list string := d.*1.

Fixpoint odict_lookup {V} (d : odict V) (k : string) : option V :=
  match d with
  | [] => None
  | (k', v) :: d' => if String.eqb k k' then Some v else odict_lookup d' k
  end.

(** [d[k]] *)
Definition odict_getitem {V} (d : odict V) (k : string) : result V :=
  match odict_lookup d k with
  | Some v => Ok v
  | None => Raise (mkExn KeyError (repr_str k))
  end.

(** [d[k]] for an unordered [dict] *)
Definition dict_getitem {V} (d : gmap string V) (k : string) : result V :=
  match d !! k with
  | Some v => Ok v
  | None => Raise (mkExn KeyError (repr_str k))
  end.

(** [d.get(k, dflt)] *)
Definition dict_get {V} (d : gmap string V) (k : string) (dflt : V) : V :=
  default dflt (d !! k).

(** ** The Vertex AI SDK's data *)

(** [vertexai.generative_models.Part] *)
Inductive Part : Type :=
| from_text (text : string)
| from_data (data : list byte) (mime_type : string).

(** [Content(role=..., parts=[...])] *)
Record Content : Type := mkContent { role : string; parts : list Part }.

(** [GenerativeModel(name)]: the handle holds the name it was built from. *)
Record GenerativeModel : Type := mkGenerativeModel { _model_name : string }.

(** [model.start_chat(history=...)] builds the session object locally. *)
Record ChatSession : Type :=
  start_chat { chat_model : GenerativeModel; history : list Content }.

(** An element of the [contents] list of [generate_content]: the prompt is a
    bare [str], the images are [Part]s. *)
Inductive content_item : Type :=
| ItemStr (s : string)
| ItemPart (p : Part).

(** The [contents] argument of [generate_content]: a [str] or a list. *)
Inductive contents_arg : Type :=
| ContentsStr (s : string)
| ContentsList (l : list content_item).

(** The reply of the service; reading [response.text] may itself raise. *)
Record GenerationResponse : Type := mkResponse { text : result string }.

(** The calls that cross the remote-service boundary, as the adapter makes
    them. *)
Inductive sdk_call : Type :=
| VertexaiInit (project location : string)
| GenerateContent (m : GenerativeModel) (contents : contents_arg)
                  (generation_config : gmap string pyval)
| SendMessage (chat : ChatSession) (message : string).

(** The SDK and the service behind it: what each call answers, given the calls
    made so far. *)
Class VertexSDK : Type := {
  vertexai_init_outcome : list sdk_call → string → string → result unit;
  generate_content_outcome :
    list sdk_call → GenerativeModel → contents_arg → gmap string pyval →
    result GenerationResponse;
  send_message_outcome :
    list sdk_call → ChatSession → string → result GenerationResponse
}.

(** The Streamlit calls of the image-analysis handler. *)
Inductive st_call : Type :=
| StSpinner (label : string)
| StSuccess (body : string)
| StMarkdown (body : string)
| StWrite (body : string)
| StError (body : string).

(** Streamlit: whether a call renders or raises, given the calls so far. *)
Class Streamlit : Type := {
  st_outcome : list st_call → st_call → result unit
}.

(** ** The process state *)

(** A node of the local filesystem: a regular file that the process can
    open and read, with its bytes, or a directory. *)
Inductive node : Type :=
| File (data : list byte)
| Dir.

(** Everything outside the adapter object: the filesystem by path, the lines
    printed on standard output, the SDK calls and the Streamlit calls made,
    oldest first. *)
Record World : Type := mkWorld {
  fs : gmap string node;
  stdout : list string;
  sdk_log : list sdk_call;
  st_log : list st_call
}.

(** The adapter object. *)
Record GeminiVertexAI : Type := mkGeminiVertexAI {
  project_id : string;
  location : string;
  models : odict string;
  model : GenerativeModel
}.

(** The state a method runs in: its [self] and the world. *)
Record State : Type := mkState { self : GeminiVertexAI; world : World }.

Definition set_fs (f : gmap string node) (w : World) : World :=
  mkWorld f (stdout w) (sdk_log w) (st_log w).
Definition set_stdout (l : list string) (w : World) : World :=
  mkWorld (fs w) l (sdk_log w) (st_log w).
Definition set_sdk_log (l : list sdk_call) (w : World) : World :=
  mkWorld (fs w) (stdout w) l (st_log w).
Definition set_st_log (l : list st_call) (w : World) : World :=
  mkWorld (fs w) (stdout w) (sdk_log w) l.

(** ** Computations: state passing with exceptions *)

Definition M (A : Type) : Type := State → result A * State.

#[global] Instance M_ret : MRet M := λ A (a : A) s, (Ok a, s).

#[global] Instance M_bind : MBind M := λ A B (k : A → M B) (m : M A) s,
  match m s with
  | (Ok a, s') => k a s'
  | (Raise e, s') => (Raise e, s')
  end.

(** [raise e] *)
Definition raise {A} (e : exn) : M A := fun s => (Raise e, s).

(** A pure step that may raise. *)
Definition lift {A} (r : result A) : M A := fun s => (r, s).

(** [try: body except Exception as e: handler(e)] *)
Definition try_except {A} (body : M A) (handler : exn → M A) : M A :=
  fun s => match body s with
           | (Ok a, s') => (Ok a, s')
           | (Raise e, s') =>
               if isinstance_Exception e then handler e s' else (Raise e, s')
           end.

(** [try: body finally: cleanup] *)
Definition try_finally {A} (body : M A) (cleanup : M unit) : M A :=
  fun s => match body s with
           | (r, s') =>
               match cleanup s' with
               | (Ok _, s'') => (r, s'')
               | (Raise e, s'') => (Raise e, s'')
               end
           end.

(** [for x in l: body(x)] *)
Fixpoint for_each {A} (l : list A) (body : A → M unit) : M unit :=
  match l with
  | [] => mret tt
  | x :: l' => body x ;; for_each l' body
  end.

Definition get_self : M GeminiVertexAI := fun s => (Ok (self s), s).
Definition get_world : M World := fun s => (Ok (world s), s).
Definition put_world (w : World) : M unit := fun s => (Ok tt, mkState (self s) w).

(** [self.model = m] *)
Definition set_self_model (m : GenerativeModel) : M unit :=
  fun s => (Ok tt,
            mkState (mkGeminiVertexAI (project_id (self s)) (location (self s))
                                      (models (self s)) m)
                    (world s)).

(** ** Built-ins and the operating system *)

(** [print(line)] *)
Definition print (line : string) : M unit :=
  w ← get_world; put_world (set_stdout (stdout w ++ [line]) w).

(** [os.path.exists(path)] *)
Definition os_path_exists (path : string) : M bool :=
  w ← get_world; mret (bool_decide (is_Some (fs w !! path))).

Definition errno_message (errno what path : string) : string :=
  "[Errno " +:+ errno +:+ "] " +:+ what +:+ ": " +:+ repr_str path.

(** [with open(path, 'rb') as f: f.read()] *)
Definition read_binary (path : string) : M (list byte) :=
  w ← get_world;
  match fs w !! path with
  | Some (File data) => mret data
  | Some Dir => raise (mkExn IsADirectoryError (errno_message "21" "Is a directory" path))
  | None => raise (mkExn FileNotFoundError (errno_message "2" "No such file or directory" path))
  end.

(** What [open(path, "wb")] and [f.write(data)] come to for a path that does
    not name a directory.  It is the operating system's answer, given the
    files there are: [open] fails for a missing parent directory
    ([temp_sub/a.png] without a directory [temp_sub]), a name that is too
    long, a missing permission, and then leaves the files as they are;
    [f.write] fails on a full disk, and leaves the file that [open] created
    or emptied with what was written of the data. *)
Inductive write_outcome : Type :=
| Written
| OpenFails (e : exn)
| WriteFails (e : exn) (written : list byte).

Class OperatingSystem : Type := {
  write_outcome_of : gmap string node → string → list byte → write_outcome
}.

(** [with open(path, "wb") as f: f.write(data)] *)
Definition write_binary {os : OperatingSystem} (path : string) (data : list byte) : M unit :=
  w ← get_world;
  match fs w !! path with
  | Some Dir => raise (mkExn IsADirectoryError (errno_message "21" "Is a directory" path))
  | _ =>
      match write_outcome_of (fs w) path data with
      | Written => put_world (set_fs (<[path := File data]> (fs w)) w)
      | OpenFails e => raise e
      | WriteFails e written =>
          put_world (set_fs (<[path := File written]> (fs w)) w);; raise e
      end
  end.

(** [os.remove(path)] *)
Definition os_remove (path : string) : M unit :=
  w ← get_world;
  match fs w !! path with
  | Some (File _) => put_world (set_fs (delete path (fs w)) w)
  | Some Dir => raise (mkExn IsADirectoryError (errno_message "21" "Is a directory" path))
  | None => raise (mkExn FileNotFoundError (errno_message "2" "No such file or directory" path))
  end.

(** [os.path.splitext]'s scan for a character other than a dot among the [n]
    characters of [p] from index [i]. *)
Fixpoint non_dot_before (p : string) (i : Z) (n : nat) : bool :=
  match n with
  | O => false
  | S n' => if String.eqb (char_at p i) "." then non_dot_before p (i + 1) n' else true
  end.

(** [os.path.splitext(p)] (posixpath): the extension starts at the last dot
    of the last path component, leading dots of the component apart. *)
Definition splitext (p : string) : string * string :=
  let sepIndex := rfind "/" p in
  let dotIndex := rfind "." p in
  if (dotIndex >? sepIndex) && non_dot_before p (sepIndex + 1) (Z.to_nat (dotIndex - (sepIndex + 1)))
  then (slice_to p dotIndex, slice_from p dotIndex)
  else (p, "").

(** [for x in l: acc = body(acc, x)]: a loop that updates a local variable. *)
Fixpoint for_fold {A B} (l : list A) (acc : B) (body : B → A → M B) : M B :=
  match l with
  | [] => mret acc
  | x :: l' => acc' ← body acc x; for_fold l' acc' body
  end.

(** [part.text] *)
Definition Part_text (p : Part) : result string :=
  match p with
  | from_text t => Ok t
  | from_data _ _ => Raise (mkExn AttributeError "Part has no text")
  end.

(** ** gemini_app.py: class GeminiVertexAI *)

Section GeminiVertexAI.
Context {sdk : VertexSDK}.

(** [model.generate_content(contents, generation_config=...)] *)
Definition generate_content (m : GenerativeModel) (contents : contents_arg)
    (generation_config : gmap string pyval) : M GenerationResponse :=
  w ← get_world;
  put_world (set_sdk_log (sdk_log w ++ [GenerateContent m contents generation_config]) w);;
  lift (generate_content_outcome (sdk_log w) m contents generation_config).

(** [chat.send_message(message)] *)
Definition send_message (chat : ChatSession) (message : string) : M GenerationResponse :=
  w ← get_world;
  put_world (set_sdk_log (sdk_log w ++ [SendMessage chat message]) w);;
  lift (send_message_outcome (sdk_log w) chat message).

(** [response.text] *)
Definition response_text (response : GenerationResponse) : M string :=
  lift (text response).

(** The [self.models] table of [__init__]. *)
Definition available_models : odict string :=
  [("gemini-2.0-flash-exp", "gemini-2.0-flash-exp");
   ("gemini-2.0-flash-thinking-exp", "gemini-2.0-flash-thinking-exp")].

Definition default_location : string := "us-central1".

(** [GeminiVertexAI(project_id, location)]: the constructor runs in a world
    and yields the new object, or raises what [vertexai.init] raised. *)
Definition __init__ (project_id location : string) (w : World)
    : result GeminiVertexAI * World :=
  let w' := set_sdk_log (sdk_log w ++ [VertexaiInit project_id location]) w in
  match vertexai_init_outcome (sdk_log w) project_id location with
  | Raise e => (Raise e, w')
  | Ok _ =>
      let models := available_models in
      match odict_getitem models "gemini-2.0-flash-exp" with
      | Raise e => (Raise e, w')
      | Ok name =>
          (Ok (mkGeminiVertexAI project_id location models (mkGenerativeModel name)), w')
      end
  end.

Definition set_model (model_name : string) : M unit :=
  self ← get_self;
  if negb (odict_contains (models self) model_name)
  then raise (mkExn ValueError
                ("Model " +:+ model_name +:+ " not supported. Available models: "
                 +:+ repr_str_list (odict_keys (models self))))
  else
    name ← lift (odict_getitem (models self) model_name);
    set_self_model (mkGenerativeModel name);;
    print ("Model set to: " +:+ model_name).

(** The dictionary literal [generation_config = {...}] that [generate_text]
    and [generate_with_images] both build from [kwargs]. *)
Definition generation_config_of (kwargs : gmap string pyval) : gmap string pyval :=
  list_to_map
    [("temperature", dict_get kwargs "temperature" (VFloat 0.7));
     ("top_p", dict_get kwargs "top_p" (VFloat 0.95));
     ("top_k", dict_get kwargs "top_k" (VInt 40));
     ("max_output_tokens", dict_get kwargs "max_output_tokens" (VInt 2048))].

(** The [try] block of [generate_text]. *)
Definition generate_text_body (prompt : string) (kwargs : gmap string pyval) : M string :=
  let generation_config := generation_config_of kwargs in
  self ← get_self;
  response ← generate_content (model self) (ContentsStr prompt) generation_config;
  response_text response.

Definition generate_text (prompt : string) (kwargs : gmap string pyval) : M string :=
  try_except (generate_text_body prompt kwargs)
             (λ e, mret ("Error generating text: " +:+ str e)).

Definition mime_types : gmap string string :=
  list_to_map
    [(".jpg", "image/jpeg"); (".jpeg", "image/jpeg"); (".png", "image/png");
     (".gif", "image/gif"); (".bmp", "image/bmp"); (".webp", "image/webp")].

Definition _get_mime_type (file_path : string) : string :=
  let extension := lower (splitext file_path).2 in
  dict_get mime_types extension "image/jpeg".

(** One turn of the loop over [image_paths]. *)
Definition add_image (content_parts : list content_item) (image_path : string)
    : M (list content_item) :=
  found ← os_path_exists image_path;
  if found : bool then
    image_data ← read_binary image_path;
    let mime_type := _get_mime_type image_path in
    mret (content_parts ++ [ItemPart (from_data image_data mime_type)])%list
  else
    print ("Warning: Image file " +:+ image_path +:+ " not found");;
    mret content_parts.

(** The [try] block of [generate_with_images]. *)
Definition generate_with_images_body (prompt : string) (image_paths : list string)
    (kwargs : gmap string pyval) : M string :=
  content_parts ← for_fold image_paths [ItemStr prompt] add_image;
  let generation_config := generation_config_of kwargs in
  self ← get_self;
  response ← generate_content (model self) (ContentsList content_parts) generation_config;
  response_text response.

Definition generate_with_images (prompt : string) (image_paths : list string)
    (kwargs : gmap string pyval) : M string :=
  try_except (generate_with_images_body prompt image_paths kwargs)
             (λ e, mret ("Error generating text with images: " +:+ str e)).

(** One turn of the loop over [messages]. *)
Definition add_message (contents : list Content) (message : gmap string string)
    : M (list Content) :=
  r ← lift (dict_getitem message "role");
  let role := if String.eqb r "user" then "user" else "model" in
  c ← lift (dict_getitem message "content");
  mret (contents ++ [mkContent role [from_text c]])%list.

(** The [try] block of [chat_conversation]. *)
Definition chat_conversation_body (messages : list (gmap string string))
    (kwargs : gmap string pyval) : M string :=
  contents ← for_fold messages [] add_message;
  self ← get_self;
  let chat := start_chat (model self) (slice_upto contents (-1)) in
  last_turn ← lift (getitem contents (-1));
  first_part ← lift (getitem (parts last_turn) 0);
  message ← lift (Part_text first_part);
  response ← send_message chat message;
  response_text response.

Definition chat_conversation (messages : list (gmap string string))
    (kwargs : gmap string pyval) : M string :=
  try_except (chat_conversation_body messages kwargs)
             (λ e, mret ("Error in chat conversation: " +:+ str e)).

End GeminiVertexAI.

(** ** streamlit_app.py: the "Analyze Images" handler of [main] *)

(** An uploaded file as the handler uses it: [uploaded_file.name] and
    [uploaded_file.getbuffer()]. *)
Record UploadedFile : Type := mkUploadedFile { name : string; getbuffer : list byte }.

Section Dashboard.
Context {sdk : VertexSDK} {st : Streamlit} {os : OperatingSystem}.

(** A Streamlit call: [st.success(...)], [st.write(...)], ... *)
Definition st_do (c : st_call) : M unit :=
  w ← get_world;
  put_world (set_st_log (st_log w ++ [c]) w);;
  lift (st_outcome (st_log w) c).

(** One turn of the loop that saves the uploads (lines 189-193). *)
Definition save_upload (temp_paths : list string) (uploaded_file : UploadedFile)
    : M (list string) :=
  let temp_path := "temp_" +:+ name uploaded_file in
  write_binary temp_path (getbuffer uploaded_file);;
  mret (temp_paths ++ [temp_path])%list.

Definition save_uploads (uploaded_files : list UploadedFile) : M (list string) :=
  for_fold uploaded_files [] save_upload.

(** The loop of the [finally] block (lines 209-211). *)
Definition remove_temp_files (temp_paths : list string) : M unit :=
  for_each temp_paths (λ temp_path,
    found ← os_path_exists temp_path;
    if found : bool then os_remove temp_path else mret tt).

(** The keyword arguments the dashboard passes from its four sliders. *)
Definition slider_kwargs (temperature max_tokens top_p top_k : pyval) : gmap string pyval :=
  list_to_map
    [("temperature", temperature); ("max_output_tokens", max_tokens);
     ("top_p", top_p); ("top_k", top_k)].

(** The [try ... finally] statement (lines 195-211): the adapter call and the
    display of its answer, then the removal of the temporary files. *)
Definition analyze_saved_images (vision_prompt : string) (temp_paths : list string)
    (temperature max_tokens top_p top_k : pyval) : M unit :=
  try_finally
    (response ← generate_with_images vision_prompt temp_paths
                  (slider_kwargs temperature max_tokens top_p top_k);
     st_do (StSuccess "✅ Analysis complete!");;
     st_do (StMarkdown "### Analysis Result:");;
     st_do (StWrite response))
    (remove_temp_files temp_paths).

(** The body of [if st.button("Analyze Images")] (lines 185-213). *)
Definition analyze_images (uploaded_files : list UploadedFile) (vision_prompt : string)
    (temperature max_tokens top_p top_k : pyval) : M unit :=
  if negb (bool_decide (uploaded_files = [])) && negb (String.eqb vision_prompt "")
  then
    st_do (StSpinner "Analyzing images...");;
    temp_paths ← save_uploads uploaded_files;
    analyze_saved_images vision_prompt temp_paths temperature max_tokens top_p top_k
  else
    st_do (StError "Please upload images and enter a prompt").

End Dashboard.

(** ** Module-level code: computations over the world alone *)

(** Code that runs outside any adapter method: the scripts' functions and
    the dashboard's handlers. *)
Definition W (A : Type) : Type := World → result A * World.

#[global] Instance W_ret : MRet W := λ A (a : A) w, (Ok a, w).

#[global] Instance W_bind : MBind W := λ A B (k : A → W B) (m : W A) w,
  match m w with
  | (Ok a, w') => k a w'
  | (Raise e, w') => (Raise e, w')
  end.

(** A method call [client.method(...)]: the method runs on the object and
    the world, and yields its result with the object as the call left it. *)
Definition call_method {A} (client : GeminiVertexAI) (method : M A)
    : W (A * GeminiVertexAI) :=
  λ w, match method (mkState client w) with
       | (Ok a, s') => (Ok (a, self s'), world s')
       | (Raise e, s') => (Raise e, world s')
       end.

(** [print(line)] and a Streamlit call, outside a method. *)
Definition print_line (line : string) : W unit :=
  λ w, (Ok tt, set_stdout (stdout w ++ [line]) w).

Definition st_emit `{Streamlit} (c : st_call) : W unit :=
  λ w, (st_outcome (st_log w) c, set_st_log (st_log w ++ [c]) w).

(** A step that returns or raises and touches nothing. *)
Definition lift_W {A} (r : result A) : W A := λ w, (r, w).

(** [try: body except Exception as e: handler(e)], outside a method. *)
Definition try_except_W {A} (body : W A) (handler : exn → W A) : W A :=
  λ w, match body w with
       | (Ok a, w') => (Ok a, w')
       | (Raise e, w') =>
           if isinstance_Exception e then handler e w' else (Raise e, w')
       end.

#[global] Instance exc_class_eq_dec : EqDecision exc_class.
Proof. solve_decision. Defined.

(** [try: body except (C1, C2, ...): handler], inside a method.  None of the
    classes of [exc_class] derives from another one of them. *)
Definition try_except_classes {A} (classes : list exc_class) (body : M A)
    (handler : M A) : M A :=
  λ s, match body s with
       | (Ok a, s') => (Ok a, s')
       | (Raise e, s') =>
           if bool_decide (exc_type e ∈ classes) then handler s' else (Raise e, s')
       end.

(** [s.startswith(prefix)] *)
Fixpoint startswith (s prefix : string) {struct prefix} : bool :=
  match prefix, s with
  | "", _ => true
  | String _ _, "" => false
  | String c prefix', String d s' => Ascii.eqb c d && startswith s' prefix'
  end.
Arguments startswith : simpl never.

(** [s * n] *)
Fixpoint repeat_string (s : string) (n : nat) : string :=
  match n with
  | O => ""
  | S n' => s +:+ repeat_string s n'
  end.

(** A byte [10xxxxxx] continues a UTF-8 character. *)
Definition is_continuation (c : ascii) : bool :=
  let n := N_of_ascii c in ((128 <=? n) && (n <? 192))%N.

(** [s[:n]]: the first [n] characters, a character being its UTF-8 bytes. *)
Fixpoint take_characters (n : nat) (s : string) : string :=
  match s with
  | "" => ""
  | String c s' =>
      if is_continuation c then String c (take_characters n s')
      else match n with
           | O => ""
           | S n' => String c (take_characters n' s')
           end
  end.

(** [s.split(sep)] for a one-character separator: [current] holds the
    characters read since the last separator, in reverse. *)
Fixpoint split_from (sep : ascii) (s : string) (current : list ascii) : list string :=
  match s with
  | "" => [string_of_list_ascii (reverse current)]
  | String c s' =>
      if Ascii.eqb c sep
      then string_of_list_ascii (reverse current) :: split_from sep s' []
      else split_from sep s' (c :: current)
  end.

Definition str_split (sep : ascii) (s : string) : list string := split_from sep s [].

(** ASCII whitespace as [str.strip] sees it: tab to carriage return, the
    four separators 28 to 31, and the space. *)
Definition is_space (c : ascii) : bool :=
  let n := N_of_ascii c in
  (((9 <=? n) && (n <=? 13)) || ((28 <=? n) && (n <=? 32)))%N.

Fixpoint lstrip (s : string) : string :=
  match s with
  | "" => ""
  | String c s' => if is_space c then lstrip s' else s
  end.

(** [s.strip()] on ASCII whitespace. *)
Definition strip (s : string) : string :=
  string_of_list_ascii
    (reverse (list_ascii_of_string
                (lstrip (string_of_list_ascii
                           (reverse (list_ascii_of_string (lstrip s))))))).

(** ** gemini_app.py: the command-line loop of [main] *)

Section CommandLine.
Context {sdk : VertexSDK}.

(** The prompt [input(prompt)] writes before it reads a line. *)
Definition input_prompt (prompt : string) : M unit := print prompt.

(** Choice 2 (lines 207-213), for the two lines the user typed. *)
Definition cli_generate_with_images (prompt paths_line : string) : M unit :=
  input_prompt "Enter your prompt: ";;
  input_prompt "Enter image file paths (comma-separated): ";;
  let image_paths := str_split "," paths_line in
  let image_paths := strip <$> image_paths in
  print (String "010" "🤖 Generating response with images...");;
  response ← generate_with_images prompt image_paths ∅;
  print (String "010" "✨ Response:" +:+ String "010" response).

(** [{"role": r, "content": c}] *)
Definition message_of (r c : string) : gmap string string :=
  <["content" := c]> (<["role" := r]> ∅).

(** One turn of the chat loop (lines 223-227), for the line the user typed. *)
Definition cli_chat_turn (messages : list (gmap string string)) (user_input : string)
    : M (list (gmap string string)) :=
  let messages := messages ++ [message_of "user" user_input] in
  print "🤖 Thinking...";;
  response ← chat_conversation messages ∅;
  print ("Assistant: " +:+ response);;
  mret (messages ++ [message_of "assistant" response]).

(** The chat loop (lines 218-227) on the lines typed so far: it stops at the
    first line that is [quit] in any case, and otherwise waits for the next
    line with the history it has. *)
Fixpoint cli_chat_loop (inputs : list string) (messages : list (gmap string string))
    : M (list (gmap string string)) :=
  match inputs with
  | [] => input_prompt (String "010" "You: ");; mret messages
  | user_input :: inputs' =>
      input_prompt (String "010" "You: ");;
      if String.eqb (lower user_input) "quit" then mret messages
      else
        messages' ← cli_chat_turn messages user_input;
        cli_chat_loop inputs' messages'
  end.

(** The menu of models (lines 230-232): [enumerate(keys, 1)]. *)
Definition print_models : M unit :=
  self ← get_self;
  print "Available models:";;
  for_each (imap (λ i model, (S i, model)) (odict_keys (models self)))
           (λ '(i, model), print (pretty i +:+ ". " +:+ model)).

(** [int(model_choice)], given what the built-in made of the string:
    [Some n], or [None] when it raised [ValueError]. *)
Definition int_of (model_choice : string) (parsed : option Z) : result Z :=
  match parsed with
  | Some n => Ok n
  | None =>
      Raise (mkExn ValueError
               ("invalid literal for int() with base 10: " +:+ repr_str model_choice))
  end.

(** Choice 4 (lines 229-240), for the stripped line the user typed. *)
Definition cli_switch_model (model_choice : string) (parsed : option Z) : M unit :=
  print_models;;
  input_prompt "Enter model number: ";;
  try_except_classes [ValueError; IndexError]
    (n ← lift (int_of model_choice parsed);
     let model_index := n - 1 in
     self ← get_self;
     model_name ← lift (getitem (odict_keys (models self)) model_index);
     set_model model_name)
    (print "Invalid model selection").

End CommandLine.

(** ** streamlit_app.py: the other handlers of [main] *)

(** [st.session_state], as far as the handlers use it. *)
Record SessionState : Type := mkSessionState {
  gemini_client : option GeminiVertexAI;
  chat_history : list (gmap string string);
  current_model : string;
  session_project_id : string
}.

(** The branch of [initialize_gemini] that stores the service-account
    credentials of the deployment (lines 58-66): it goes through [json] and
    [tempfile] and is taken as it comes, returning or raising. *)
Class Credentials : Type := {
  store_credentials : World → result unit * World
}.

(** The state of a dashboard session: [st.session_state] and the world. *)
Record Dashboard : Type := mkDashboard { session : SessionState; dashboard_world : World }.

Definition D (A : Type) : Type := Dashboard → result A * Dashboard.

#[global] Instance D_ret : MRet D := λ A (a : A) d, (Ok a, d).

#[global] Instance D_bind : MBind D := λ A B (k : A → D B) (m : D A) d,
  match m d with
  | (Ok a, d') => k a d'
  | (Raise e, d') => (Raise e, d')
  end.

Definition get_session : D SessionState := λ d, (Ok (session d), d).

(** A computation over the world, run in the session. *)
Definition in_world {A} (m : W A) : D A :=
  λ d, match m (dashboard_world d) with
       | (r, w') => (r, mkDashboard (session d) w')
       end.

(** [st.session_state.gemini_client = client] *)
Definition set_gemini_client (client : option GeminiVertexAI) : D unit :=
  λ d, (Ok tt,
        mkDashboard (mkSessionState client (chat_history (session d))
                                    (current_model (session d))
                                    (session_project_id (session d)))
                    (dashboard_world d)).

(** [st.session_state.current_model = model_name] *)
Definition set_current_model (model_name : string) : D unit :=
  λ d, (Ok tt,
        mkDashboard (mkSessionState (gemini_client (session d)) (chat_history (session d))
                                    model_name (session_project_id (session d)))
                    (dashboard_world d)).

(** [st.session_state.chat_history.append(message)] *)
Definition append_chat_history (message : gmap string string) : D unit :=
  λ d, (Ok tt,
        mkDashboard (mkSessionState (gemini_client (session d))
                                    (chat_history (session d) ++ [message])
                                    (current_model (session d))
                                    (session_project_id (session d)))
                    (dashboard_world d)).

(** [st.session_state.gemini_client.method(...)]: the method runs on the
    client the session holds, which keeps what the method did to it; with no
    client the attribute access on [None] raises. *)
Definition call_client {A} (method_name : string) (method : M A) : D A :=
  λ d, match gemini_client (session d) with
       | None =>
           (Raise (mkExn AttributeError
                     ("'NoneType' object has no attribute '" +:+ method_name +:+ "'")), d)
       | Some client =>
           match method (mkState client (dashboard_world d)) with
           | (r, s') =>
               (r, mkDashboard (mkSessionState (Some (self s')) (chat_history (session d))
                                               (current_model (session d))
                                               (session_project_id (session d)))
                               (world s'))
           end
       end.

Section Handlers.
Context {sdk : VertexSDK} {st : Streamlit} {credentials : Credentials}.

(** The body of [if st.button("Generate")] (lines 145-158). *)
Definition generate_text_clicked (prompt : string)
    (temperature max_tokens top_p top_k : pyval) : M unit :=
  if negb (String.eqb prompt "")
  then
    st_do (StSpinner "Generating response...");;
    response ← generate_text prompt (slider_kwargs temperature max_tokens top_p top_k);
    st_do (StSuccess "✅ Response generated!");;
    st_do (StMarkdown "### Response:");;
    st_do (StWrite response)
  else
    st_do (StError "Please enter a prompt").

(** The body of [if st.button("Send")] (lines 239-253), up to [st.rerun()]. *)
Definition send_clicked (user_input : string)
    (temperature max_tokens top_p top_k : pyval) : D unit :=
  if negb (String.eqb user_input "")
  then
    append_chat_history (message_of "user" user_input);;
    in_world (st_emit (StSpinner "Thinking..."));;
    session ← get_session;
    response ← call_client "chat_conversation"
                 (chat_conversation (chat_history session)
                    (slider_kwargs temperature max_tokens top_p top_k));
    append_chat_history (message_of "assistant" response)
  else
    mret tt.

(** [initialize_gemini()] (lines 48-72), for the project identifier of the
    session: the new client, or [None]. *)
Definition initialize_gemini (project_id : string) : W (option GeminiVertexAI) :=
  if String.eqb project_id ""
  then
    st_emit (StError "Please enter your Google Cloud Project ID in the sidebar");;
    mret None
  else
    try_except_W
      (store_credentials;;
       client ← __init__ project_id default_location;
       mret (Some client))
      (λ e, st_emit (StError ("Failed to initialize Gemini client: " +:+ str e));;
            mret None).

(** The body of [if st.button("Initialize Gemini Client")] (lines 98-100). *)
Definition initialize_clicked : D unit :=
  session ← get_session;
  client ← in_world (initialize_gemini (session_project_id session));
  set_gemini_client client;;
  match client with
  | Some _ => in_world (st_emit (StSuccess "✅ Gemini client initialized successfully!"))
  | None => mret tt
  end.

(** The option the select box of models shows first (lines 105-110):
    [models.index(current_model) if current_model in models else 0]. *)
Definition selectbox_index (models : list string) (current_model : string) : nat :=
  if bool_decide (current_model ∈ models)
  then default 0%nat (fst <$> list_find (λ m, m = current_model) models)
  else 0%nat.

(** The statement [if selected_model != st.session_state.current_model]
    (lines 112-115). *)
Definition model_selected (selected_model : string) : D unit :=
  session ← get_session;
  if negb (String.eqb selected_model (current_model session))
  then
    call_client "set_model" (set_model selected_model);;
    set_current_model selected_model;;
    in_world (st_emit (StSuccess ("Model switched to: " +:+ selected_model)))
  else
    mret tt.

End Handlers.

(** ** config.py *)

(** [os.getenv(key, dflt)] in the environment [env]. *)
Definition getenv (env : gmap string string) (key dflt : string) : string :=
  default dflt (env !! key).

(** [DEFAULT_CONFIG] as the module builds it when it is imported. *)
Definition DEFAULT_CONFIG (env : gmap string string) : gmap string pyval :=
  list_to_map
    [("project_id", VStr (getenv env "GOOGLE_CLOUD_PROJECT" "endless-codex-465716-v9"));
     ("location", VStr (getenv env "VERTEX_AI_LOCATION" "us-central1"));
     ("default_model", VStr (getenv env "DEFAULT_MODEL" "gemini-2.0-flash-exp"));
     ("service_account_key", VStr (getenv env "GOOGLE_APPLICATION_CREDENTIALS" ""))].

(** [bool(v)] *)
Definition truthy (v : pyval) : bool :=
  match v with
  | VNone => false
  | VBool b => b
  | VInt n => negb (n =? 0)
  | VFloat x => negb (PrimFloat.eqb x 0)
  | VStr s => negb (String.eqb s "")
  end.

(** [get_config()], [update_config(new_config)] and [validate_config()], on
    the current value [config] of the module's dictionary. *)
Definition get_config (config : gmap string pyval) : gmap string pyval := config.

Definition update_config (new_config config : gmap string pyval) : gmap string pyval :=
  new_config ∪ config.

Definition required_fields : list string := ["project_id"].

Fixpoint validate_fields (config : gmap string pyval) (fields : list string) : W bool :=
  match fields with
  | [] => print_line "✅ Configuration is valid";; mret true
  | field :: fields' =>
      if negb (truthy (default VNone (config !! field)))
      then print_line ("❌ Missing required configuration: " +:+ field);; mret false
      else validate_fields config fields'
  end.

Definition validate_config (config : gmap string pyval) : W bool :=
  validate_fields config required_fields.

(** ** setup.py: [test_setup] *)

Section Setup.
Context {sdk : VertexSDK}.

(** [test_setup()] (lines 124-154), given what the import of [gemini_app]
    does and the value of [GOOGLE_CLOUD_PROJECT]. *)
Definition test_setup (import_gemini_app : result unit) (project_id : option string)
    : W bool :=
  print_line (String "010" "🧪 Testing Setup");;
  print_line (repeat_string "=" 50);;
  try_except_W
    (lift_W import_gemini_app;;
     if String.eqb (default "" project_id) ""
     then print_line "❌ Project ID not found";; mret false
     else
       print_line "Creating Gemini client...";;
       gemini ← __init__ (default "" project_id) default_location;
       print_line "✅ Gemini client created successfully";;
       print_line "Testing text generation...";;
       '(response, _) ← call_method gemini
           (generate_text "Hello, this is a test. Please respond briefly."
                          {[ "max_output_tokens" := VInt 50 ]});
       if negb (String.eqb response "") && negb (startswith response "Error")
       then
         print_line "✅ Text generation test passed";;
         print_line ("   Response: " +:+ take_characters 100 response +:+ "...");;
         mret true
       else
         print_line "❌ Text generation test failed";;
         print_line ("   Error: " +:+ response);;
         mret false)
    (λ e, print_line ("❌ Setup test failed: " +:+ str e);; mret false).

End Setup.

(** ** Stub services and states, for concrete runs *)

(** An SDK that accepts the project and answers every generation call with
    [answer]. *)
Definition answering_sdk (answer : result GenerationResponse) : VertexSDK :=
  {| vertexai_init_outcome _ _ _ := Ok tt;
     generate_content_outcome _ _ _ _ := answer;
     send_message_outcome _ _ _ := answer |}.

(** A Streamlit that renders everything. *)
Definition rendering_st : Streamlit := {| st_outcome _ _ := Ok tt |}.

(** A Streamlit whose [st.write] raises [e]. *)
Definition failing_write_st (e : exn) : Streamlit :=
  {| st_outcome _ c := match c with StWrite _ => Raise e | _ => Ok tt end |}.

(** An operating system that accepts every write. *)
Definition willing_os : OperatingSystem := {| write_outcome_of _ _ _ := Written |}.

(** An operating system that opens a file for writing only in a directory
    that exists: the part of the path before its last [/], if it has one
    past its first character, must name a directory. *)
Definition parent_checking_os : OperatingSystem :=
  {| write_outcome_of files path _ :=
       let sepIndex := rfind "/" path in
       if sepIndex <=? 0 then Written
       else match files !! slice_to path sepIndex with
            | Some Dir => Written
            | Some (File _) =>
                OpenFails (mkExn OSError (errno_message "20" "Not a directory" path))
            | None =>
                OpenFails (mkExn FileNotFoundError
                                 (errno_message "2" "No such file or directory" path))
            end |}.

(** An operating system whose disk is full: [open] creates or empties the
    file and [f.write] writes nothing. *)
Definition full_disk_os : OperatingSystem :=
  {| write_outcome_of _ _ data :=
       match data with
       | [] => Written
       | _ => WriteFails (mkExn OSError "[Errno 28] No space left on device") []
       end |}.

Definition world_of (files : gmap string node) : World := mkWorld files [] [] [].

(** The adapter right after [GeminiVertexAI("demo-project")]. *)
Definition fresh_adapter : GeminiVertexAI :=
  mkGeminiVertexAI "demo-project" default_location available_models
                   (mkGenerativeModel "gemini-2.0-flash-exp").

Definition state_of (files : gmap string node) : State :=
  mkState fresh_adapter (world_of files).

Definition service_unavailable : exn :=
  mkExn (SdkError "ServiceUnavailable") "503 failed to connect to all addresses".

Definition hello : result GenerationResponse := Ok (mkResponse (Ok "Hello!")).

(** The state right after the constructor has run in an empty world. *)
Definition initial_state : State :=
  mkState fresh_adapter
          (mkWorld ∅ [] [VertexaiInit "demo-project" default_location] []).

(** Two image files out of three references: [b.gif] does not exist. *)
Definition two_images : gmap string node :=
  list_to_map [("a.png", File [x89; x50]); ("c.JPG", File [xff; xd8])].

(** The history of example.py. *)
Definition message_dict (r c : string) : gmap string string :=
  list_to_map [("role", r); ("content", c)].

Definition example_messages : list (gmap string string) :=
  [message_dict "user" "Hello! Can you help me?";
   message_dict "assistant" "Of course! What would you like to explore?";
   message_dict "user" "What is supervised learning?"].

Definition two_uploads : list UploadedFile :=
  [mkUploadedFile "a.png" [x89; x50]; mkUploadedFile "b.png" [x89]].

Definition interrupt : exn := mkExn KeyboardInterrupt "".

(** ** Definitions used to state the properties *)

(** The identifiers [set_model] accepts. *)
Definition supported_models : list string := odict_keys available_models.

(** What a generation method returns once the service has answered
    [outcome]: the text, or the error string with the method's [prefix]. *)
Definition flatten (prefix : string) (r : result string) : result string :=
  match r with
  | Ok t => Ok t
  | Raise e => if isinstance_Exception e then Ok (prefix +:+ str e) else Raise e
  end.

Definition reply_of (prefix : string) (outcome : result GenerationResponse) : result string :=
  flatten prefix (match outcome with Ok response => text response | Raise e => Raise e end).

(** The model a call to the service addresses. *)
Definition call_model (c : sdk_call) : option GenerativeModel :=
  match c with
  | VertexaiInit _ _ => None
  | GenerateContent m _ _ => Some m
  | SendMessage chat _ => Some (chat_model chat)
  end.

(** The world after one more SDK call. *)
Definition logged (c : sdk_call) (w : World) : World :=
  set_sdk_log (sdk_log w ++ [c]) w.

(** The image parts of the references that name a file, in input order. *)
Definition image_parts (files : gmap string node) (image_paths : list string)
    : list content_item :=
  image_paths ≫= (λ p, match files !! p with
                        | Some (File data) => [ItemPart (from_data data (_get_mime_type p))]
                        | _ => []
                        end).

(** The warnings for the references that name nothing, in input order. *)
Definition missing_warnings (files : gmap string node) (image_paths : list string)
    : list string :=
  image_paths ≫= (λ p, match files !! p with
                        | None => ["Warning: Image file " +:+ p +:+ " not found"]
                        | Some _ => []
                        end).

(** No reference names a directory: every reference that exists is a file
    that [open] opens and [f.read()] reads. *)
Definition no_directory (files : gmap string node) (image_paths : list string) : bool :=
  forallb (λ p, match files !! p with Some Dir => false | _ => true end) image_paths.

(** The lines typed before the first one that is [quit] in any case. *)
Fixpoint lines_before_quit (inputs : list string) : list string :=
  match inputs with
  | [] => []
  | user_input :: inputs' =>
      if String.eqb (lower user_input) "quit" then []
      else user_input :: lines_before_quit inputs'
  end.

(** A path that names a regular file. *)
Definition is_file (files : gmap string node) (path : string) : Prop :=
  ∃ data, files !! path = Some (File data).

(** A message dictionary with both keys of the documented shape. *)
Definition has_role_and_content (message : gmap string string) : Prop :=
  is_Some (message !! "role") ∧ is_Some (message !! "content").

Definition message_role (message : gmap string string) : string :=
  default "" (message !! "role").
Definition message_content (message : gmap string string) : string :=
  default "" (message !! "content").

(** The turn a message is converted to: role ["user"] stays, any other role
    becomes ["model"]. *)
Definition turn_of (message : gmap string string) : Content :=
  mkContent (if decide (message_role message = "user") then "user" else "model")
            [from_text (message_content message)].

(** The adapter states a session can reach: construction, then any sequence
    of method calls, whatever each returns or raises, with the world free to
    change between calls. *)
Inductive method_call : Type :=
| CallSetModel (model_name : string)
| CallGenerateText (prompt : string) (kwargs : gmap string pyval)
| CallGenerateWithImages (prompt : string) (image_paths : list string)
                         (kwargs : gmap string pyval)
| CallChatConversation (messages : list (gmap string string))
                       (kwargs : gmap string pyval).

Definition state_after `{VertexSDK} (c : method_call) (s : State) : State :=
  match c with
  | CallSetModel model_name => (set_model model_name s).2
  | CallGenerateText prompt kwargs => (generate_text prompt kwargs s).2
  | CallGenerateWithImages prompt image_paths kwargs =>
      (generate_with_images prompt image_paths kwargs s).2
  | CallChatConversation messages kwargs => (chat_conversation messages kwargs s).2
  end.

Inductive reachable `{VertexSDK} : State → Prop :=
| reachable_init project_id location w a w' :
    __init__ project_id location w = (Ok a, w') → reachable (mkState a w')
| reachable_call s c :
    reachable s → reachable (state_after c s)
| reachable_world s w :
    reachable s → reachable (mkState (self s) w).

(** The four keys [generation_config_of] reads. *)
Definition generation_keys : list string :=
  ["temperature"; "top_p"; "top_k"; "max_output_tokens"].

(** The key [add_message] misses first in a message. *)
Definition missing_key (message : gmap string string) : string :=
  match message !! "role" with
  | None => "role"
  | Some _ => "content"
  end.

(** A Streamlit on which every call renders. *)
Definition renders (st : Streamlit) : Prop := ∀ log c, st_outcome log c = Ok tt.

(** The model that the number typed at the menu selects, if any. *)
Definition chosen_model (parsed : option Z) : option string :=
  match parsed with
  | Some n =>
      if decide (n = 1 ∨ n = -1) then Some "gemini-2.0-flash-exp"
      else if decide (n = 2 ∨ n = 0) then Some "gemini-2.0-flash-thinking-exp"
      else None
  | None => None
  end.

(** The adapter with another active model. *)
Definition with_model (a : GeminiVertexAI) (model_name : string) : GeminiVertexAI :=
  mkGeminiVertexAI (project_id a) (location a) (models a) (mkGenerativeModel model_name).

(** The bytes of the last upload that has the name of [u]. *)
Definition last_upload_named (uploaded_files : list UploadedFile) (u : UploadedFile)
    : list byte :=
  default (getbuffer u)
          (getbuffer <$> last (filter (λ v, name v = name u) uploaded_files)).

Fixpoint count_char (c : ascii) (s : string) : nat :=
  match s with
  | "" => 0
  | String d s' => (if Ascii.eqb c d then 1 else 0) + count_char c s'
  end.

(** ** More stubs for concrete runs *)

(** A deployment without stored credentials. *)
Definition no_credentials : Credentials := {| store_credentials w := (Ok tt, w) |}.

(** An SDK whose [vertexai.init] raises [e]. *)
Definition refusing_sdk (e : exn) : VertexSDK :=
  {| vertexai_init_outcome _ _ _ := Raise e;
     generate_content_outcome _ _ _ _ := hello;
     send_message_outcome _ _ _ := hello |}.

Definition files_with_directory : gmap string node :=
  list_to_map [("shots", Dir); ("a.png", File [x89; x50])].

(** A session that has switched to the second model. *)
Definition switched_session : Dashboard :=
  mkDashboard
    (mkSessionState (Some (with_model fresh_adapter "gemini-2.0-flash-thinking-exp"))
                    [message_of "user" "Hi"; message_of "assistant" "Hello!"]
                    "gemini-2.0-flash-thinking-exp" "demo-project")
    (world_of ∅).

Definition same_name_uploads : list UploadedFile :=
  [mkUploadedFile "a.png" [x01]; mkUploadedFile "b.png" [x02];
   mkUploadedFile "a.png" [x03]].

Definition permission_denied : exn :=
  mkExn (SdkError "PermissionDenied") "403 Vertex AI API has not been used in project".

(** * Properties *)

Ltac run_monad :=
  unfold mbind, M_bind, mret, M_ret, get_self, get_world, put_world, lift, raise; simpl.

Lemma isinstance_Exception_caught prefix e :
  isinstance_Exception e = true → flatten prefix (Raise e) = Ok (prefix +:+ str e).
Proof. intros He. unfold flatten. by rewrite He. Qed.

Lemma flatten_never_raises_Exception prefix r e :
  flatten prefix r = Raise e → isinstance_Exception e = false.
Proof.
  destruct r as [t|e']; simpl; [discriminate|].
  destruct (isinstance_Exception e') eqn:He'; [discriminate|].
  intros [= <-]. exact He'.
Qed.

(** [try ... except Exception] returns what [flatten] says, in the state the
    body left. *)
Lemma try_except_flatten prefix (body : M string) s :
  try_except body (λ e, mret (prefix +:+ str e)) s
  = (flatten prefix (body s).1, (body s).2).
Proof.
  unfold try_except. destruct (body s) as [[t|e] s']; simpl; [done|].
  by destruct (isinstance_Exception e).
Qed.

Section Adapter_properties.
Context {sdk : VertexSDK}.

Lemma generate_content_run m contents cfg s :
  generate_content m contents cfg s
  = (generate_content_outcome (sdk_log (world s)) m contents cfg,
     mkState (self s) (logged (GenerateContent m contents cfg) (world s))).
Proof. reflexivity. Qed.

Lemma send_message_run chat message s :
  send_message chat message s
  = (send_message_outcome (sdk_log (world s)) chat message,
     mkState (self s) (logged (SendMessage chat message) (world s))).
Proof. reflexivity. Qed.

(** A generation call followed by [response.text]. *)
Lemma answer_text_run (call : M GenerationResponse) outcome s s' :
  call s = (outcome, s') →
  (response ← call; response_text response) s
  = (match outcome with Ok response => text response | Raise e => Raise e end, s').
Proof. run_monad. intros ->. by destruct outcome. Qed.

Lemma generate_text_body_run prompt kwargs s :
  generate_text_body prompt kwargs s
  = (match generate_content_outcome (sdk_log (world s)) (model (self s))
             (ContentsStr prompt) (generation_config_of kwargs) with
     | Ok response => text response
     | Raise e => Raise e
     end,
     mkState (self s)
       (logged (GenerateContent (model (self s)) (ContentsStr prompt)
                                (generation_config_of kwargs)) (world s))).
Proof.
  unfold generate_text_body. simpl.
  exact (answer_text_run _ _ _ _ (generate_content_run _ _ _ s)).
Qed.

(** What [generate_text] does, in full: one call to the service, whose
    outcome is returned as text or as an error string. *)
Lemma generate_text_run prompt kwargs s :
  generate_text prompt kwargs s
  = (reply_of "Error generating text: "
       (generate_content_outcome (sdk_log (world s)) (model (self s))
          (ContentsStr prompt) (generation_config_of kwargs)),
     mkState (self s)
       (logged (GenerateContent (model (self s)) (ContentsStr prompt)
                                (generation_config_of kwargs)) (world s))).
Proof.
  unfold generate_text. rewrite try_except_flatten, generate_text_body_run. done.
Qed.

(** One turn of the loop over the image references. *)
Lemma add_image_run content_parts image_path s :
  add_image content_parts image_path s
  = match fs (world s) !! image_path with
    | Some (File data) =>
        (Ok (content_parts ++ [ItemPart (from_data data (_get_mime_type image_path))]), s)
    | Some Dir =>
        (Raise (mkExn IsADirectoryError (errno_message "21" "Is a directory" image_path)), s)
    | None =>
        (Ok content_parts,
         mkState (self s)
           (set_stdout
              (stdout (world s) ++ ["Warning: Image file " +:+ image_path +:+ " not found"])
              (world s)))
    end.
Proof.
  unfold add_image, os_path_exists, read_binary, print. run_monad.
  destruct (fs (world s) !! image_path) as [[data|]|] eqn:E; simpl; by rewrite ?E.
Qed.

Lemma for_fold_cons {A B} (x : A) (l : list A) (acc : B) (body : B → A → M B) s :
  for_fold (x :: l) acc body s
  = match body acc x s with
    | (Ok acc', s') => for_fold l acc' body s'
    | (Raise e, s') => (Raise e, s')
    end.
Proof. reflexivity. Qed.

Lemma for_fold_app {A B} (l1 l2 : list A) (body : B → A → M B) : ∀ acc s,
  for_fold (l1 ++ l2) acc body s
  = match for_fold l1 acc body s with
    | (Ok acc', s') => for_fold l2 acc' body s'
    | (Raise e, s') => (Raise e, s')
    end.
Proof.
  induction l1 as [|x l1 IH]; intros acc s; [done|].
  rewrite <- app_comm_cons, !for_fold_cons.
  destruct (body acc x s) as [[acc'|e] s']; [apply IH|done].
Qed.

(** The loop over the image references, when no reference names a
    directory: the parts of the files found are appended in order, and one
    warning is printed per missing file. *)
Lemma for_fold_add_image image_paths : ∀ acc s,
  (∀ p, p ∈ image_paths → fs (world s) !! p ≠ Some Dir) →
  for_fold image_paths acc add_image s
  = (Ok (acc ++ image_parts (fs (world s)) image_paths),
     mkState (self s)
       (set_stdout (stdout (world s) ++ missing_warnings (fs (world s)) image_paths)
                   (world s))).
Proof.
  induction image_paths as [|p l IH]; intros acc [a [f o c u]] Hfiles.
  - simpl. by rewrite !app_nil_r.
  - assert (Hp : f !! p ≠ Some Dir) by (apply Hfiles; left).
    assert (Hl : ∀ o', ∀ q, q ∈ l → fs (world (mkState a (mkWorld f o' c u))) !! q ≠ Some Dir)
      by (intros o' q Hq; apply Hfiles; by right).
    rewrite for_fold_cons, add_image_run. simpl in *.
    unfold image_parts, missing_warnings. simpl.
    destruct (f !! p) as [[data|]|] eqn:Ep; [| done |].
    + rewrite IH by (intros q Hq; simpl; by apply (Hl [])).
      simpl. by rewrite <- app_assoc.
    + rewrite IH by (intros q Hq; simpl; by apply (Hl [])).
      unfold set_stdout. simpl. by rewrite <- app_assoc.
Qed.

(** The loop leaves the adapter, the files and the call logs as they were,
    whatever it meets. *)
Lemma for_fold_add_image_frame image_paths : ∀ acc s,
  let s' := (for_fold image_paths acc add_image s).2 in
  self s' = self s ∧ fs (world s') = fs (world s)
  ∧ sdk_log (world s') = sdk_log (world s) ∧ st_log (world s') = st_log (world s).
Proof.
  induction image_paths as [|p l IH]; intros acc s; [done|].
  rewrite for_fold_cons, add_image_run.
  destruct (fs (world s) !! p) as [[data|]|] eqn:Ep; [| done |].
  - apply IH.
  - destruct s as [a [f o c u]]. simpl.
    apply (IH acc (mkState a (mkWorld f (o ++ [_]) c u))).
Qed.

Lemma generate_with_images_body_run prompt image_paths kwargs s :
  generate_with_images_body prompt image_paths kwargs s
  = match for_fold image_paths [ItemStr prompt] add_image s with
    | (Ok content_parts, s1) =>
        (match generate_content_outcome (sdk_log (world s1)) (model (self s1))
                 (ContentsList content_parts) (generation_config_of kwargs) with
         | Ok response => text response
         | Raise e => Raise e
         end,
         mkState (self s1)
           (logged (GenerateContent (model (self s1)) (ContentsList content_parts)
                                    (generation_config_of kwargs)) (world s1)))
    | (Raise e, s1) => (Raise e, s1)
    end.
Proof.
  unfold generate_with_images_body. unfold mbind at 1, M_bind at 1.
  destruct (for_fold image_paths [ItemStr prompt] add_image s) as [[content_parts|e] s1];
    [|done].
  simpl. exact (answer_text_run _ _ _ _ (generate_content_run _ _ _ s1)).
Qed.

(** [generate_with_images] when no reference names a directory: the
    warnings, then one call to the service with the prompt and the parts. *)
Lemma generate_with_images_run prompt image_paths kwargs s :
  (∀ p, p ∈ image_paths → fs (world s) !! p ≠ Some Dir) →
  let contents := ContentsList (ItemStr prompt :: image_parts (fs (world s)) image_paths) in
  let config := generation_config_of kwargs in
  generate_with_images prompt image_paths kwargs s
  = (reply_of "Error generating text with images: "
       (generate_content_outcome (sdk_log (world s)) (model (self s)) contents config),
     mkState (self s)
       (logged (GenerateContent (model (self s)) contents config)
          (set_stdout (stdout (world s) ++ missing_warnings (fs (world s)) image_paths)
                      (world s)))).
Proof.
  intros Hfiles. unfold generate_with_images.
  rewrite try_except_flatten, generate_with_images_body_run.
  by rewrite for_fold_add_image.
Qed.

Lemma no_directory_true files image_paths :
  no_directory files image_paths = true →
  ∀ p, p ∈ image_paths → files !! p ≠ Some Dir.
Proof.
  unfold no_directory. intros Hall p Hp Hdir.
  apply list_elem_of_In in Hp.
  pose proof (proj1 (forallb_forall _ _) Hall p Hp) as Hfile. simpl in Hfile.
  by rewrite Hdir in Hfile.
Qed.

(** A list of references of which one names a directory, split at the first
    of them. *)
Lemma no_directory_false files image_paths :
  no_directory files image_paths = false →
  ∃ before directory after,
    image_paths = before ++ directory :: after
    ∧ (∀ p, p ∈ before → files !! p ≠ Some Dir)
    ∧ files !! directory = Some Dir.
Proof.
  induction image_paths as [|p l IH]; [done|]. simpl.
  destruct (files !! p) as [[data|]|] eqn:Hp; simpl.
  - intros (before & directory & after & -> & Hbefore & Hdir)%IH.
    exists (p :: before), directory, after. split; [done|]. split; [|done].
    intros q [->|Hq]%elem_of_cons; [by rewrite Hp | by apply Hbefore].
  - intros _. exists [], p, l. split; [done|]. split; [|done].
    intros q Hq. by apply elem_of_nil in Hq.
  - intros (before & directory & after & -> & Hbefore & Hdir)%IH.
    exists (p :: before), directory, after. split; [done|]. split; [|done].
    intros q [->|Hq]%elem_of_cons; [by rewrite Hp | by apply Hbefore].
Qed.

(** [generate_with_images] when a reference names a directory: the loop stops
    at the first such reference, with the warnings of the missing files
    before it printed and nothing sent, and the method returns the error
    string of the [open] that failed. *)
Lemma generate_with_images_stops_at_directory prompt before directory after kwargs s :
  (∀ p, p ∈ before → fs (world s) !! p ≠ Some Dir) →
  fs (world s) !! directory = Some Dir →
  generate_with_images prompt (before ++ directory :: after) kwargs s
  = (Ok ("Error generating text with images: "
         +:+ errno_message "21" "Is a directory" directory),
     mkState (self s)
       (set_stdout (stdout (world s) ++ missing_warnings (fs (world s)) before) (world s))).
Proof.
  intros Hbefore Hdir. unfold generate_with_images.
  rewrite try_except_flatten, generate_with_images_body_run, for_fold_app.
  rewrite for_fold_add_image by done.
  rewrite for_fold_cons, add_image_run. simpl. by rewrite Hdir.
Qed.

(** What [generate_with_images] sends: one call when no reference names a
    directory, with the prompt and the parts of the files, and nothing when
    one does. *)
Lemma generate_with_images_sdk_log prompt image_paths kwargs s :
  sdk_log (world (generate_with_images prompt image_paths kwargs s).2)
  = sdk_log (world s)
    ++ (if no_directory (fs (world s)) image_paths
        then [GenerateContent (model (self s))
                (ContentsList (ItemStr prompt :: image_parts (fs (world s)) image_paths))
                (generation_config_of kwargs)]
        else []).
Proof.
  destruct (no_directory (fs (world s)) image_paths) eqn:Hpaths.
  - by rewrite generate_with_images_run by (by apply no_directory_true).
  - apply no_directory_false in Hpaths
      as (before & directory & after & -> & Hbefore & Hdir).
    rewrite generate_with_images_stops_at_directory by done.
    simpl. by rewrite app_nil_r.
Qed.

(** Whatever happens, [generate_with_images] leaves the adapter, the files
    and the Streamlit log alone, and makes at most one call to the service,
    with the configuration built from [kwargs]. *)
Lemma generate_with_images_frame prompt image_paths kwargs s :
  let s' := (generate_with_images prompt image_paths kwargs s).2 in
  self s' = self s ∧ fs (world s') = fs (world s) ∧ st_log (world s') = st_log (world s)
  ∧ (sdk_log (world s') = sdk_log (world s)
     ∨ ∃ content_parts,
         sdk_log (world s')
         = sdk_log (world s)
           ++ [GenerateContent (model (self s)) (ContentsList content_parts)
                               (generation_config_of kwargs)]).
Proof.
  unfold generate_with_images.
  rewrite try_except_flatten, generate_with_images_body_run.
  pose proof (for_fold_add_image_frame image_paths [ItemStr prompt] s) as Hloop.
  destruct (for_fold image_paths [ItemStr prompt] add_image s) as [[content_parts|e] s1];
    simpl in *; destruct Hloop as (Hself & Hfs & Hsdk & Hst).
  - rewrite Hself, Hfs, Hsdk, Hst. repeat split; try done. right. by exists content_parts.
  - repeat split; try done. by left.
Qed.

(** One turn of the loop over the messages. *)
Lemma add_message_run contents message s :
  add_message contents message s
  = match message !! "role", message !! "content" with
    | None, _ => (Raise (mkExn KeyError (repr_str "role")), s)
    | Some _, None => (Raise (mkExn KeyError (repr_str "content")), s)
    | Some r, Some c =>
        (Ok (contents ++ [mkContent (if String.eqb r "user" then "user" else "model")
                                    [from_text c]]), s)
    end.
Proof.
  unfold add_message, dict_getitem. run_monad.
  destruct (message !! "role") as [r|]; [|done].
  by destruct (message !! "content") as [c|].
Qed.

Lemma add_message_turn_of contents message s :
  has_role_and_content message →
  add_message contents message s = (Ok (contents ++ [turn_of message]), s).
Proof.
  intros [[r Hr] [c Hc]]. rewrite add_message_run, Hr, Hc.
  unfold turn_of, message_role, message_content. rewrite Hr, Hc. simpl.
  destruct (String.eqb_spec r "user"); by case_decide.
Qed.

(** The loop over well-formed messages converts each one, in order, and
    touches nothing. *)
Lemma for_fold_add_message messages : ∀ acc s,
  Forall has_role_and_content messages →
  for_fold messages acc add_message s = (Ok (acc ++ (turn_of <$> messages)), s).
Proof.
  induction messages as [|m l IH]; intros acc s Hwf.
  - simpl. by rewrite app_nil_r.
  - apply Forall_cons in Hwf as [Hm Hl].
    rewrite for_fold_cons, add_message_turn_of by done.
    rewrite IH by done. by rewrite <- app_assoc.
Qed.

(** Whatever the messages, the loop touches nothing. *)
Lemma for_fold_add_message_frame messages : ∀ acc s,
  (for_fold messages acc add_message s).2 = s.
Proof.
  induction messages as [|m l IH]; intros acc s; [done|].
  rewrite for_fold_cons, add_message_run.
  destruct (m !! "role") as [r|]; [|done].
  destruct (m !! "content") as [c|]; [|done].
  apply IH.
Qed.

(** [l[-1]] and [l[:-1]] of a list that ends in [x]. *)
Lemma getitem_last {A} (l : list A) (x : A) : getitem (l ++ [x]) (-1) = Ok x.
Proof.
  unfold getitem. rewrite length_app. simpl.
  replace (-1 + Z.of_nat (length l + 1)) with (Z.of_nat (length l)) by lia.
  destruct (Z.ltb_spec (Z.of_nat (length l)) 0); [lia|].
  destruct (Z.leb_spec (Z.of_nat (length l + 1)) (Z.of_nat (length l))); [lia|].
  simpl. rewrite Nat2Z.id.
  by rewrite lookup_app_r, Nat.sub_diag by lia.
Qed.

Lemma slice_upto_last {A} (l : list A) (x : A) : slice_upto (l ++ [x]) (-1) = l.
Proof.
  unfold slice_upto. rewrite length_app. simpl.
  replace (Z.max 0 (-1 + Z.of_nat (length l + 1))) with (Z.of_nat (length l)) by lia.
  rewrite Nat2Z.id. by rewrite take_app_length.
Qed.

Lemma getitem_nil {A} (i : Z) :
  getitem (@nil A) i = Raise (mkExn IndexError "list index out of range").
Proof.
  unfold getitem. simpl. by destruct (_ || _).
Qed.

Lemma chat_conversation_body_run messages kwargs s :
  chat_conversation_body messages kwargs s
  = match for_fold messages [] add_message s with
    | (Ok contents, s1) =>
        match getitem contents (-1) with
        | Ok last_turn =>
            match getitem (parts last_turn) 0 with
            | Ok first_part =>
                match Part_text first_part with
                | Ok message =>
                    let chat := start_chat (model (self s1)) (slice_upto contents (-1)) in
                    (match send_message_outcome (sdk_log (world s1)) chat message with
                     | Ok response => text response
                     | Raise e => Raise e
                     end,
                     mkState (self s1) (logged (SendMessage chat message) (world s1)))
                | Raise e => (Raise e, s1)
                end
            | Raise e => (Raise e, s1)
            end
        | Raise e => (Raise e, s1)
        end
    | (Raise e, s1) => (Raise e, s1)
    end.
Proof.
  unfold chat_conversation_body. unfold mbind at 1, M_bind at 1.
  destruct (for_fold messages [] add_message s) as [[contents|e] s1]; [|done].
  run_monad.
  destruct (getitem contents (-1)) as [last_turn|e]; [|done].
  destruct (getitem (parts last_turn) 0) as [first_part|e]; [|done].
  destruct (Part_text first_part) as [message|e]; [|done].
  by destruct (send_message_outcome _ _ _).
Qed.

(** [chat_conversation] on a history of well-formed messages that ends in
    [final]: one [send_message] on a session seeded with the turns before. *)
Lemma chat_conversation_run messages final kwargs s :
  last messages = Some final →
  Forall has_role_and_content messages →
  let chat := start_chat (model (self s)) (removelast (turn_of <$> messages)) in
  chat_conversation messages kwargs s
  = (reply_of "Error in chat conversation: "
       (send_message_outcome (sdk_log (world s)) chat (message_content final)),
     mkState (self s) (logged (SendMessage chat (message_content final)) (world s))).
Proof.
  intros Hlast Hwf. apply last_Some in Hlast as [prior ->].
  unfold chat_conversation.
  rewrite try_except_flatten, chat_conversation_body_run.
  rewrite for_fold_add_message by done.
  rewrite fmap_app. simpl. rewrite getitem_last, slice_upto_last, removelast_last.
  done.
Qed.

(** Whatever the history, [chat_conversation] leaves the adapter, the files,
    the output and the Streamlit log alone. *)
Lemma chat_conversation_frame messages kwargs s :
  let s' := (chat_conversation messages kwargs s).2 in
  self s' = self s ∧ fs (world s') = fs (world s)
  ∧ stdout (world s') = stdout (world s) ∧ st_log (world s') = st_log (world s).
Proof.
  unfold chat_conversation.
  rewrite try_except_flatten, chat_conversation_body_run.
  pose proof (for_fold_add_message_frame messages [] s) as Hloop.
  destruct (for_fold messages [] add_message s) as [[contents|e] s1];
    simpl in Hloop; subst s1; [|done].
  destruct (getitem contents (-1)) as [last_turn|e]; [|done].
  destruct (getitem (parts last_turn) 0) as [first_part|e]; [|done].
  by destruct (Part_text first_part) as [message|e].
Qed.

(** [set_model] on an identifier of the table, and on any other string. *)
Lemma set_model_supported model_name s :
  models (self s) = available_models →
  model_name ∈ supported_models →
  set_model model_name s
  = (Ok tt,
     mkState (mkGeminiVertexAI (project_id (self s)) (location (self s))
                               (models (self s)) (mkGenerativeModel model_name))
             (set_stdout (stdout (world s) ++ ["Model set to: " +:+ model_name]) (world s))).
Proof.
  intros Hmodels Hin. unfold set_model, odict_contains. run_monad. rewrite Hmodels.
  unfold supported_models in Hin. rewrite bool_decide_eq_true_2 by done. simpl.
  unfold supported_models, odict_keys, available_models in Hin. simpl in Hin.
  apply elem_of_cons in Hin as [->|Hin]; [simpl; by rewrite Hmodels|].
  apply elem_of_cons in Hin as [->|Hin]; [simpl; by rewrite Hmodels|].
  by apply elem_of_nil in Hin.
Qed.

Lemma set_model_unsupported model_name s :
  model_name ∉ odict_keys (models (self s)) →
  set_model model_name s
  = (Raise (mkExn ValueError
              ("Model " +:+ model_name +:+ " not supported. Available models: "
               +:+ repr_str_list (odict_keys (models (self s))))),
     s).
Proof.
  intros Hnotin. unfold set_model, odict_contains. run_monad.
  by rewrite bool_decide_eq_false_2.
Qed.

(** Every reachable adapter holds the table of [__init__] and a handle
    built from one of its identifiers. *)
Lemma reachable_invariant s :
  reachable s →
  models (self s) = available_models ∧ _model_name (model (self s)) ∈ supported_models.
Proof.
  induction 1 as [project location w a w' Hinit | s c Hs [IHm IHa] | s w Hs IH].
  - unfold __init__ in Hinit.
    destruct (vertexai_init_outcome _ _ _); simpl in Hinit; [|done].
    injection Hinit as <- <-. simpl. split; [done|]. by left.
  - destruct c as [model_name|prompt kwargs|prompt image_paths kwargs|messages kwargs];
      simpl.
    + destruct (decide (model_name ∈ supported_models)) as [Hin|Hnotin].
      * rewrite set_model_supported by done. simpl. done.
      * rewrite set_model_unsupported by (by rewrite IHm). done.
    + rewrite generate_text_run. done.
    + destruct (generate_with_images_frame prompt image_paths kwargs s) as [-> _]. done.
    + destruct (chat_conversation_frame messages kwargs s) as [-> _]. done.
  - exact IH.
Qed.

(** Every method leaves the SDK log as it was or adds one call, addressed to
    the model that was active when the method was called. *)
Lemma chat_conversation_log messages kwargs s :
  let s' := (chat_conversation messages kwargs s).2 in
  sdk_log (world s') = sdk_log (world s)
  ∨ ∃ chat message,
      chat_model chat = model (self s)
      ∧ sdk_log (world s') = sdk_log (world s) ++ [SendMessage chat message].
Proof.
  unfold chat_conversation.
  rewrite try_except_flatten, chat_conversation_body_run.
  pose proof (for_fold_add_message_frame messages [] s) as Hloop.
  destruct (for_fold messages [] add_message s) as [[contents|e] s1];
    simpl in Hloop; subst s1; [|by left].
  destruct (getitem contents (-1)) as [last_turn|e]; [|by left].
  destruct (getitem (parts last_turn) 0) as [first_part|e]; [|by left].
  destruct (Part_text first_part) as [message|e]; [|by left].
  right. simpl. eexists (start_chat _ _), _. split; reflexivity.
Qed.

Lemma method_log c s :
  let s' := state_after c s in
  sdk_log (world s') = sdk_log (world s)
  ∨ ∃ call, call_model call = Some (model (self s))
            ∧ sdk_log (world s') = sdk_log (world s) ++ [call].
Proof.
  destruct c as [model_name|prompt kwargs|prompt image_paths kwargs|messages kwargs];
    simpl.
  - left. unfold set_model. run_monad.
    destruct (negb _); [done|].
    by destruct (odict_getitem _ _).
  - right. rewrite generate_text_run. simpl. eexists (GenerateContent _ _ _).
    split; reflexivity.
  - destruct (generate_with_images_frame prompt image_paths kwargs s)
      as (_ & _ & _ & [Hlog|[content_parts Hlog]]); [by left|].
    right. eexists (GenerateContent _ _ _). split; [reflexivity|exact Hlog].
  - destruct (chat_conversation_log messages kwargs s) as [Hlog|(chat & message & Hm & Hlog)];
      [by left|].
    right. exists (SendMessage chat message). split; [|exact Hlog]. simpl. by rewrite Hm.
Qed.

(** *** Errors are returned as strings *)

(** The causes a call can meet, one by one. *)
Lemma generate_text_service_error prompt kwargs s e :
  isinstance_Exception e = true →
  generate_content_outcome (sdk_log (world s)) (model (self s)) (ContentsStr prompt)
                           (generation_config_of kwargs) = Raise e →
  (generate_text prompt kwargs s).1 = Ok ("Error generating text: " +:+ str e).
Proof.
  intros He Hout. rewrite generate_text_run. unfold reply_of. simpl. rewrite Hout.
  by apply isinstance_Exception_caught.
Qed.

Lemma generate_text_malformed_response prompt kwargs s e :
  isinstance_Exception e = true →
  generate_content_outcome (sdk_log (world s)) (model (self s)) (ContentsStr prompt)
                           (generation_config_of kwargs) = Ok (mkResponse (Raise e)) →
  (generate_text prompt kwargs s).1 = Ok ("Error generating text: " +:+ str e).
Proof.
  intros He Hout. rewrite generate_text_run. unfold reply_of. simpl. rewrite Hout.
  by apply isinstance_Exception_caught.
Qed.

Lemma chat_conversation_missing_role messages message kwargs s :
  message !! "role" = None →
  chat_conversation (message :: messages) kwargs s
  = (Ok ("Error in chat conversation: " +:+ repr_str "role"), s).
Proof.
  intros Hrole. unfold chat_conversation.
  rewrite try_except_flatten, chat_conversation_body_run, for_fold_cons, add_message_run.
  by rewrite Hrole.
Qed.

(** C1: whatever exception (an instance of [Exception]: a failure of the
    network, of authentication, of quota, a malformed response, a local
    error) the [try] block of [generate_text], [generate_with_images] or
    [chat_conversation] raises, the method does not propagate it: it returns
    the method's fixed prefix followed by [str(e)]; and no call of the three
    methods ends by raising an instance of [Exception]. *)
Theorem exceptions_returned_as_error_strings
    prompt image_paths messages kwargs s e (He : isinstance_Exception e = true) :
  (∀ s', generate_text_body prompt kwargs s = (Raise e, s') →
         generate_text prompt kwargs s = (Ok ("Error generating text: " +:+ str e), s'))
  ∧ (∀ s', generate_with_images_body prompt image_paths kwargs s = (Raise e, s') →
           generate_with_images prompt image_paths kwargs s
           = (Ok ("Error generating text with images: " +:+ str e), s'))
  ∧ (∀ s', chat_conversation_body messages kwargs s = (Raise e, s') →
           chat_conversation messages kwargs s
           = (Ok ("Error in chat conversation: " +:+ str e), s'))
  ∧ (generate_text prompt kwargs s).1 ≠ Raise e
  ∧ (generate_with_images prompt image_paths kwargs s).1 ≠ Raise e
  ∧ (chat_conversation messages kwargs s).1 ≠ Raise e.
Proof.
  unfold generate_text, generate_with_images, chat_conversation.
  rewrite !try_except_flatten.
  repeat split.
  - intros s' ->. simpl. by rewrite He.
  - intros s' ->. simpl. by rewrite He.
  - intros s' ->. simpl. by rewrite He.
  - simpl. intros Hr. apply flatten_never_raises_Exception in Hr. congruence.
  - simpl. intros Hr. apply flatten_never_raises_Exception in Hr. congruence.
  - simpl. intros Hr. apply flatten_never_raises_Exception in Hr. congruence.
Qed.

(** *** Model selection *)


(** C8: in every reachable state the adapter holds the table of [__init__]
    and its active model is one of the supported identifiers; and
    [generate_text], [generate_with_images] and [chat_conversation] return
    the adapter (active model, project, location, table) as they found it, so
    that only [set_model] changes it. *)
Theorem active_model_is_supported s (Hs : reachable s) :
  (_model_name (model (self s)) ∈ supported_models
   ∧ models (self s) = available_models)
  ∧ (∀ prompt kwargs, self (generate_text prompt kwargs s).2 = self s)
  ∧ (∀ prompt image_paths kwargs,
       self (generate_with_images prompt image_paths kwargs s).2 = self s)
  ∧ (∀ messages kwargs, self (chat_conversation messages kwargs s).2 = self s).
Proof.
  split; [by apply and_comm, reachable_invariant|].
  split; [|split].
  - intros prompt kwargs. by rewrite generate_text_run.
  - intros prompt image_paths kwargs.
    by destruct (generate_with_images_frame prompt image_paths kwargs s) as [-> _].
  - intros messages kwargs.
    by destruct (chat_conversation_frame messages kwargs s) as [-> _].
Qed.

(** *** The generation configuration *)

Lemma generation_config_dom kwargs :
  dom (generation_config_of kwargs)
  = ({[ "temperature"; "top_p"; "top_k"; "max_output_tokens" ]} : gset string).
Proof. unfold generation_config_of. rewrite dom_list_to_map_L. simpl. set_solver. Qed.

Lemma generation_config_lookup kwargs :
  generation_config_of kwargs !! "temperature"
    = Some (default (VFloat 0.7) (kwargs !! "temperature"))
  ∧ generation_config_of kwargs !! "top_p"
    = Some (default (VFloat 0.95) (kwargs !! "top_p"))
  ∧ generation_config_of kwargs !! "top_k"
    = Some (default (VInt 40) (kwargs !! "top_k"))
  ∧ generation_config_of kwargs !! "max_output_tokens"
    = Some (default (VInt 2048) (kwargs !! "max_output_tokens")).
Proof.
  unfold generation_config_of, dict_get.
  rewrite !list_to_map_cons, list_to_map_nil.
  repeat split; by simplify_map_eq.
Qed.

(** C3: every call of [generate_text] sends one request, and every call of
    [generate_with_images] whose loop over the references completes (no
    reference names a directory) sends one request, the prompt followed by
    the parts of the files read; a call of [generate_with_images] whose loop
    fails sends nothing.  The configuration of these requests is the
    dictionary built from [kwargs]: its keys are exactly [temperature],
    [top_p], [top_k] and [max_output_tokens], and each key holds the caller's
    value when [kwargs] has that key and otherwise its default (0.7, 0.95,
    40, 2048), whatever the other keys hold; with only [temperature=0.3] it
    is [{temperature: 0.3, top_p: 0.95, top_k: 40, max_output_tokens: 2048}]. *)
Theorem generation_config_defaults_and_overrides prompt image_paths kwargs s :
  let config := generation_config_of kwargs in
  sdk_log (world (generate_text prompt kwargs s).2)
    = sdk_log (world s) ++ [GenerateContent (model (self s)) (ContentsStr prompt) config]
  ∧ sdk_log (world (generate_with_images prompt image_paths kwargs s).2)
    = sdk_log (world s)
      ++ (if no_directory (fs (world s)) image_paths
          then [GenerateContent (model (self s))
                  (ContentsList (ItemStr prompt :: image_parts (fs (world s)) image_paths))
                  config]
          else [])
  ∧ dom config = ({[ "temperature"; "top_p"; "top_k"; "max_output_tokens" ]} : gset string)
  ∧ config !! "temperature" = Some (default (VFloat 0.7) (kwargs !! "temperature"))
  ∧ config !! "top_p" = Some (default (VFloat 0.95) (kwargs !! "top_p"))
  ∧ config !! "top_k" = Some (default (VInt 40) (kwargs !! "top_k"))
  ∧ config !! "max_output_tokens" = Some (default (VInt 2048) (kwargs !! "max_output_tokens"))
  ∧ generation_config_of {[ "temperature" := VFloat 0.3 ]}
    = list_to_map [("temperature", VFloat 0.3); ("top_p", VFloat 0.95);
                   ("top_k", VInt 40); ("max_output_tokens", VInt 2048)].
Proof.
  intros config. split; [by rewrite generate_text_run|].
  split; [apply generate_with_images_sdk_log|].
  split; [apply generation_config_dom|].
  destruct (generation_config_lookup kwargs) as (Ht & Hp & Hk & Hm).
  repeat split; try done.
Qed.

(** *** The prompt is passed through *)

(** C9: [generate_text] checks nothing about the prompt: for every prompt,
    the empty string included, it makes exactly one call to the service,
    with that prompt as the contents, and returns what the service's answer
    determines; nothing is decided locally. *)
Theorem generate_text_passes_any_prompt prompt kwargs s :
  let call p :=
    GenerateContent (model (self s)) (ContentsStr p) (generation_config_of kwargs) in
  let answer p :=
    generate_content_outcome (sdk_log (world s)) (model (self s)) (ContentsStr p)
                             (generation_config_of kwargs) in
  sdk_log (world (generate_text prompt kwargs s).2) = sdk_log (world s) ++ [call prompt]
  ∧ (generate_text prompt kwargs s).1 = reply_of "Error generating text: " (answer prompt)
  ∧ sdk_log (world (generate_text "" kwargs s).2) = sdk_log (world s) ++ [call ""]
  ∧ (generate_text "" kwargs s).1 = reply_of "Error generating text: " (answer "").
Proof. intros call answer. by rewrite !generate_text_run. Qed.

(** *** Chat histories *)

(** C4: for a non-empty history of messages with the two documented keys
    whose last message has role [user], [chat_conversation] converts every
    message in order (role [user] to "user", any other role to "model"),
    seeds the chat session with all converted turns but the last, and sends
    the text of the last message as the one new message; for a history of
    length 1 the seed is empty. *)
Theorem chat_conversation_seeds_and_sends messages final kwargs s
    (Hlast : last messages = Some final)
    (Hkeys : Forall has_role_and_content messages)
    (Huser : message_role final = "user") :
  let turns := turn_of <$> messages in
  let chat := start_chat (model (self s)) (removelast turns) in
  Forall2 (λ message turn,
             role turn = (if decide (message_role message = "user") then "user" else "model")
             ∧ parts turn = [from_text (message_content message)])
          messages turns
  ∧ sdk_log (world (chat_conversation messages kwargs s).2)
    = sdk_log (world s) ++ [SendMessage chat (message_content final)]
  ∧ (chat_conversation messages kwargs s).1
    = reply_of "Error in chat conversation: "
        (send_message_outcome (sdk_log (world s)) chat (message_content final))
  ∧ (length messages = 1%nat → history chat = []).
Proof.
  intros turns chat. split; [|split; [|split]].
  - subst turns. clear. induction messages as [|m l IH]; constructor; done.
  - by rewrite (chat_conversation_run messages final).
  - by rewrite (chat_conversation_run messages final).
  - subst chat turns. simpl. by destruct messages as [|m [|m' l]].
Qed.

(** C10: [chat_conversation] does not check that the history is non-empty:
    on the empty list the access to the last converted turn raises
    [IndexError], the handler catches it, and the call returns the error
    string with nothing sent and the adapter and the world unchanged. *)
Theorem chat_conversation_empty_history kwargs s :
  chat_conversation [] kwargs s
  = (Ok "Error in chat conversation: list index out of range", s)
  ∧ chat_conversation_body [] kwargs s
    = (Raise (mkExn IndexError "list index out of range"), s).
Proof.
  unfold chat_conversation.
  rewrite try_except_flatten, chat_conversation_body_run.
  split; reflexivity.
Qed.

(** *** Images *)

(** C5: when every reference names a file or nothing, [generate_with_images]
    prints one warning for each reference whose file does not exist, skips
    it, and goes on: it makes one call to the service whose contents are the
    prompt followed by the parts of the files read, in the order of the
    references, and returns what the service's answer determines; no file is
    touched. *)
Theorem missing_images_are_skipped_with_a_warning prompt image_paths kwargs s
    (Hfiles : Forall (λ p, fs (world s) !! p ≠ Some Dir) image_paths) :
  let files := fs (world s) in
  let contents := ContentsList (ItemStr prompt :: image_parts files image_paths) in
  let config := generation_config_of kwargs in
  let s' := (generate_with_images prompt image_paths kwargs s).2 in
  stdout (world s') = stdout (world s) ++ missing_warnings files image_paths
  ∧ sdk_log (world s')
    = sdk_log (world s) ++ [GenerateContent (model (self s)) contents config]
  ∧ (generate_with_images prompt image_paths kwargs s).1
    = reply_of "Error generating text with images: "
        (generate_content_outcome (sdk_log (world s)) (model (self s)) contents config)
  ∧ fs (world s') = files.
Proof.
  intros files contents config s'. subst s'.
  rewrite generate_with_images_run by (by apply Forall_forall).
  done.
Qed.

(** The table of [_get_mime_type], key by key. *)
Lemma mime_types_lookup extension :
  mime_types !! extension
  = if decide (extension = ".jpg") then Some "image/jpeg"
    else if decide (extension = ".jpeg") then Some "image/jpeg"
    else if decide (extension = ".png") then Some "image/png"
    else if decide (extension = ".gif") then Some "image/gif"
    else if decide (extension = ".bmp") then Some "image/bmp"
    else if decide (extension = ".webp") then Some "image/webp"
    else None.
Proof.
  unfold mime_types. rewrite !list_to_map_cons, list_to_map_nil.
  repeat case_decide; by simplify_map_eq.
Qed.

(** C7: the MIME type of a path depends on nothing but the path's
    extension, the suffix [os.path.splitext] splits off, taken in lower
    case: [.jpg] and [.jpeg] give image/jpeg, [.png] image/png, [.gif]
    image/gif, [.bmp] image/bmp, [.webp] image/webp, and every other
    extension, the empty one included, gives image/jpeg. *)
Theorem mime_type_from_extension file_path :
  let extension := lower (splitext file_path).2 in
  _get_mime_type file_path
  = (if decide (extension = ".jpg") then "image/jpeg"
     else if decide (extension = ".jpeg") then "image/jpeg"
     else if decide (extension = ".png") then "image/png"
     else if decide (extension = ".gif") then "image/gif"
     else if decide (extension = ".bmp") then "image/bmp"
     else if decide (extension = ".webp") then "image/webp"
     else "image/jpeg")
  ∧ (extension ∉ [".jpg"; ".jpeg"; ".png"; ".gif"; ".bmp"; ".webp"] →
     _get_mime_type file_path = "image/jpeg")
  ∧ (∀ other, (splitext other).2 = (splitext file_path).2 →
              _get_mime_type other = _get_mime_type file_path).
Proof.
  intros extension. split; [|split].
  - unfold _get_mime_type, dict_get. fold extension.
    rewrite mime_types_lookup. by repeat case_decide.
  - intros Hnot. unfold _get_mime_type, dict_get. fold extension.
    rewrite mime_types_lookup. repeat case_decide; try done; subst; set_solver.
  - intros other Hext. unfold _get_mime_type. by rewrite Hext.
Qed.

Example mime_type_examples :
  _get_mime_type "photo.jpg" = "image/jpeg"
  ∧ _get_mime_type "scan.jpeg" = "image/jpeg"
  ∧ _get_mime_type "uploads/chart.png" = "image/png"
  ∧ _get_mime_type "a.gif" = "image/gif"
  ∧ _get_mime_type "a.bmp" = "image/bmp"
  ∧ _get_mime_type "a.webp" = "image/webp"
  ∧ _get_mime_type "photo.PNG" = "image/png"
  ∧ _get_mime_type "archive.tar.gz" = "image/jpeg"
  ∧ _get_mime_type "README" = "image/jpeg"
  ∧ _get_mime_type ".png" = "image/jpeg"
  ∧ _get_mime_type "shots.png/first" = "image/jpeg".
Proof. repeat split; reflexivity. Qed.

End Adapter_properties.

(** *** Temporary files of the dashboard *)

Section Dashboard_properties.
Context {sdk : VertexSDK} {st : Streamlit} {os : OperatingSystem}.

Lemma write_binary_run path data s :
  write_binary path data s
  = match fs (world s) !! path with
    | Some Dir =>
        (Raise (mkExn IsADirectoryError (errno_message "21" "Is a directory" path)), s)
    | _ =>
        match write_outcome_of (fs (world s)) path data with
        | Written =>
            (Ok tt, mkState (self s) (set_fs (<[path := File data]> (fs (world s))) (world s)))
        | OpenFails e => (Raise e, s)
        | WriteFails e written =>
            (Raise e,
             mkState (self s) (set_fs (<[path := File written]> (fs (world s))) (world s)))
        end
    end.
Proof.
  unfold write_binary. run_monad.
  destruct s as [a [f o c u]]; simpl.
  destruct (f !! path) as [[?|]|]; try done;
    by destruct (write_outcome_of f path data).
Qed.

(** A write that returns has put the data at the path and touched nothing
    else. *)
Lemma write_binary_returns path data s s1 :
  write_binary path data s = (Ok tt, s1) →
  s1 = mkState (self s) (set_fs (<[path := File data]> (fs (world s))) (world s)).
Proof.
  rewrite write_binary_run. intros Hrun.
  destruct (fs (world s) !! path) as [[?|]|]; try discriminate Hrun;
    destruct (write_outcome_of (fs (world s)) path data); try discriminate Hrun;
    by injection Hrun as <-.
Qed.

(** One turn of the loop that saves the uploads, when it completes. *)
Lemma save_upload_returns temp_paths u s temp_paths' s1 :
  save_upload temp_paths u s = (Ok temp_paths', s1) →
  temp_paths' = temp_paths ++ ["temp_" +:+ name u]
  ∧ s1 = mkState (self s)
           (set_fs (<["temp_" +:+ name u := File (getbuffer u)]> (fs (world s))) (world s)).
Proof.
  unfold save_upload. unfold mbind, M_bind. intros Hrun.
  destruct (write_binary ("temp_" +:+ name u) (getbuffer u) s) as [[[]|e] s2] eqn:Hw;
    [|discriminate Hrun].
  apply write_binary_returns in Hw as ->. by injection Hrun as <- <-.
Qed.

(** When the loop that saves the uploads completes, it has produced the
    paths [temp_<name>] in order and written every upload in turn over what
    was there; it has touched nothing else. *)
Lemma for_fold_save_upload_returns uploaded_files : ∀ acc s temp_paths s1,
  for_fold uploaded_files acc save_upload s = (Ok temp_paths, s1) →
  temp_paths = acc ++ ((λ u, "temp_" +:+ name u) <$> uploaded_files)
  ∧ s1 = mkState (self s)
           (set_fs (foldl (λ f u, <["temp_" +:+ name u := File (getbuffer u)]> f)
                          (fs (world s)) uploaded_files)
                   (world s)).
Proof.
  induction uploaded_files as [|u l IH]; intros acc s temp_paths s1 Hrun.
  - simpl in Hrun. injection Hrun as <- <-. rewrite app_nil_r. by destruct s as [a []].
  - rewrite for_fold_cons in Hrun.
    destruct (save_upload acc u s) as [[acc'|e] s2] eqn:Hstep; [|discriminate Hrun].
    apply save_upload_returns in Hstep as [-> ->].
    apply IH in Hrun as [-> ->]. simpl. by rewrite <- app_assoc.
Qed.

(** When the loop that saves the uploads completes, it has produced the
    paths [temp_<name>] in order, each of them names a file, and the files
    that were there are still files. *)
Lemma for_fold_save_upload uploaded_files : ∀ acc s temp_paths s1,
  for_fold uploaded_files acc save_upload s = (Ok temp_paths, s1) →
  temp_paths = acc ++ ((λ u, "temp_" +:+ name u) <$> uploaded_files)
  ∧ (∀ path, is_file (fs (world s)) path → is_file (fs (world s1)) path)
  ∧ (∀ u, u ∈ uploaded_files → is_file (fs (world s1)) ("temp_" +:+ name u)).
Proof.
  induction uploaded_files as [|u l IH]; intros acc s temp_paths s1 Hrun.
  - simpl in Hrun. injection Hrun as <- <-. rewrite app_nil_r.
    split; [done|]. split; [done|]. intros u Hu. by apply elem_of_nil in Hu.
  - rewrite for_fold_cons in Hrun.
    destruct (save_upload acc u s) as [[acc'|e] s2] eqn:Hsave; [|discriminate Hrun].
    apply save_upload_returns in Hsave as [-> ->].
    set (path := "temp_" +:+ name u) in *.
    assert (Hstep : ∀ q, is_file (fs (world s)) q ∨ q = path →
                         is_file (<[path := File (getbuffer u)]> (fs (world s))) q).
    { intros q [[data Hq]| ->].
      - destruct (decide (path = q)) as [<-|Hne]; [eexists; apply lookup_insert_eq|].
        exists data. by rewrite lookup_insert_ne.
      - eexists. apply lookup_insert_eq. }
    apply IH in Hrun as (-> & Hkeep & Hnew). simpl in *.
    split; [by rewrite <- app_assoc|].
    split; [intros q Hq; apply Hkeep, Hstep; by left|].
    intros v Hv. apply elem_of_cons in Hv as [->|Hv].
    + apply Hkeep, Hstep. by right.
    + by apply Hnew.
Qed.

(** The files left once the paths of [l] have been removed one by one. *)
Lemma lookup_foldl_delete (l : list string) : ∀ (files : gmap string node) path,
  foldl (λ f p, delete p f) files l !! path
  = if decide (path ∈ l) then None else files !! path.
Proof.
  induction l as [|p l IH]; intros files path; simpl.
  - done.
  - rewrite IH. destruct (decide (path ∈ l)) as [Hin|Hnotin].
    + rewrite decide_True by (by right). done.
    + destruct (decide (path = p)) as [->|Hne].
      * rewrite decide_True by (by left). apply lookup_delete_eq.
      * rewrite decide_False by (intros [?|?]%elem_of_cons; done).
        by apply lookup_delete_ne.
Qed.

(** The loop of the [finally] block, when none of the paths names a
    directory: it completes and removes every one of them. *)
Lemma remove_temp_files_run temp_paths : ∀ s,
  (∀ path, path ∈ temp_paths → fs (world s) !! path ≠ Some Dir) →
  remove_temp_files temp_paths s
  = (Ok tt,
     mkState (self s)
       (set_fs (foldl (λ f p, delete p f) (fs (world s)) temp_paths) (world s))).
Proof.
  induction temp_paths as [|p l IH]; intros [a [f o c u]] Hfiles; [done|].
  assert (Hp : f !! p ≠ Some Dir) by (apply Hfiles; by left).
  unfold remove_temp_files in *. simpl for_each.
  unfold mbind at 1, M_bind at 1, os_path_exists, os_remove. run_monad.
  assert (Hrest : ∀ path, path ∈ l → delete p f !! path ≠ Some Dir).
  { intros path Hpath. destruct (decide (p = path)) as [->|Hne].
    - by rewrite lookup_delete_eq.
    - rewrite lookup_delete_ne by done. apply Hfiles. by right. }
  destruct (f !! p) as [[data|]|] eqn:Ep; simpl; [| done |].
  - rewrite Ep. simpl. by rewrite IH.
  - rewrite <- (delete_id f p) at 1 by done. by rewrite IH.
Qed.

Lemma st_do_run c s :
  st_do c s
  = (st_outcome (st_log (world s)) c,
     mkState (self s) (set_st_log (st_log (world s) ++ [c]) (world s))).
Proof. reflexivity. Qed.

(** The [try] block of the handler, the adapter call and the display of its
    answer, leaves the files as they were, however it ends. *)
Lemma analyze_try_block_frame vision_prompt temp_paths kwargs s :
  fs (world ((response ← generate_with_images vision_prompt temp_paths kwargs;
              st_do (StSuccess "✅ Analysis complete!");;
              st_do (StMarkdown "### Analysis Result:");;
              st_do (StWrite response)) s).2)
  = fs (world s).
Proof.
  unfold mbind at 1, M_bind at 1.
  destruct (generate_with_images_frame vision_prompt temp_paths kwargs s)
    as (_ & Hfs & _).
  destruct (generate_with_images vision_prompt temp_paths kwargs s) as [[response|e] s1];
    simpl in Hfs; [|done].
  unfold mbind, M_bind. rewrite !st_do_run. simpl.
  destruct (st_outcome _ (StSuccess _)); [|done].
  by destruct (st_outcome _ (StMarkdown _)).
Qed.

(** The [try ... finally] statement removes every path it was given that
    does not name a directory, whether its [try] block returns or raises. *)
Lemma analyze_saved_images_removes vision_prompt temp_paths t m p k s :
  (∀ path, path ∈ temp_paths → fs (world s) !! path ≠ Some Dir) →
  ∀ path, path ∈ temp_paths →
    fs (world (analyze_saved_images vision_prompt temp_paths t m p k s).2) !! path = None.
Proof.
  intros Hfiles path Hpath. unfold analyze_saved_images, try_finally.
  pose proof (analyze_try_block_frame vision_prompt temp_paths (slider_kwargs t m p k) s)
    as Hfs.
  destruct ((response ← generate_with_images vision_prompt temp_paths (slider_kwargs t m p k);
             st_do (StSuccess "✅ Analysis complete!");;
             st_do (StMarkdown "### Analysis Result:");;
             st_do (StWrite response)) s) as [r s2].
  simpl in Hfs.
  rewrite remove_temp_files_run by (by rewrite Hfs).
  simpl. rewrite Hfs, lookup_foldl_delete. by rewrite decide_True.
Qed.

(** What the [finally] block achieves: once the handler has saved all the
    uploads to their temporary paths, every one of these paths is absent
    from the filesystem when the handler is over, whether the adapter call
    and the display of its answer returned or raised. *)
Lemma temporary_files_are_removed uploaded_files vision_prompt t m p k s s0 temp_paths s1
    (Hfiles : uploaded_files ≠ [])
    (Hprompt : vision_prompt ≠ "")
    (Hspinner : st_do (StSpinner "Analyzing images...") s = (Ok tt, s0))
    (Hsaved : save_uploads uploaded_files s0 = (Ok temp_paths, s1)) :
  let s' := (analyze_images uploaded_files vision_prompt t m p k s).2 in
  temp_paths = (λ u, "temp_" +:+ name u) <$> uploaded_files
  ∧ (∀ path, path ∈ temp_paths → is_file (fs (world s1)) path)
  ∧ (∀ path, path ∈ temp_paths → fs (world s') !! path = None).
Proof.
  intros s'. subst s'.
  apply for_fold_save_upload in Hsaved as Hsaved'. destruct Hsaved' as (Hpaths & _ & Hnew).
  simpl in Hpaths.
  assert (Hare_files : ∀ path, path ∈ temp_paths → is_file (fs (world s1)) path).
  { intros path Hpath. rewrite Hpaths in Hpath.
    apply list_elem_of_fmap in Hpath as (u & -> & Hu). by apply Hnew. }
  split; [done|]. split; [done|].
  unfold analyze_images.
  rewrite bool_decide_eq_false_2 by done.
  destruct (String.eqb_spec vision_prompt "") as [|_]; [done|]. simpl.
  unfold mbind at 1, M_bind at 1. rewrite Hspinner.
  unfold mbind at 1, M_bind at 1. rewrite Hsaved.
  apply analyze_saved_images_removes.
  intros path Hpath. destruct (Hare_files path Hpath) as [data ->]. done.
Qed.

(** What the [finally] block does not cover: the loop that saves the uploads
    runs before the [try].  When the write of an upload raises, the handler
    ends there with that exception: the adapter is not called, the [finally]
    block is not entered, and the state is the one the failed write left,
    with the files of the uploads saved before it. *)
Lemma failed_save_ends_the_handler before u after vision_prompt t m p k s s0 temp_paths s1 e s2
    (Hprompt : vision_prompt ≠ "")
    (Hspinner : st_do (StSpinner "Analyzing images...") s = (Ok tt, s0))
    (Hbefore : save_uploads before s0 = (Ok temp_paths, s1))
    (Hfails : save_upload temp_paths u s1 = (Raise e, s2)) :
  analyze_images (before ++ u :: after) vision_prompt t m p k s = (Raise e, s2)
  ∧ ∀ v, v ∈ before → is_file (fs (world s1)) ("temp_" +:+ name v).
Proof.
  split.
  - unfold analyze_images.
    rewrite bool_decide_eq_false_2 by (by destruct before).
    destruct (String.eqb_spec vision_prompt "") as [|_]; [done|]. simpl.
    unfold mbind at 1, M_bind at 1. rewrite Hspinner.
    unfold mbind at 1, M_bind at 1. unfold save_uploads in *.
    by rewrite for_fold_app, Hbefore, for_fold_cons, Hfails.
  - by apply for_fold_save_upload in Hbefore as (_ & _ & Hnew).
Qed.

End Dashboard_properties.

(** * Concrete runs *)

Lemma exceptions_returned_as_error_strings_witness :
  isinstance_Exception service_unavailable = true
  ∧ generate_text (sdk := answering_sdk (Raise service_unavailable)) "Say hi" ∅ (state_of ∅)
    = (Ok "Error generating text: 503 failed to connect to all addresses",
       mkState fresh_adapter
         (logged (GenerateContent (model fresh_adapter) (ContentsStr "Say hi")
                                  (generation_config_of ∅)) (world_of ∅))).
Proof.
  split; [reflexivity|].
  apply (proj1 (exceptions_returned_as_error_strings
                  (sdk := answering_sdk (Raise service_unavailable))
                  "Say hi" [] [] ∅ (state_of ∅) service_unavailable eq_refl)).
  reflexivity.
Defined.

(** What [except Exception] leaves alone: an interrupt that arrives during
    the call to the service goes through the method. *)
Example interrupt_goes_through :
  (generate_text (sdk := answering_sdk (Raise interrupt)) "Say hi" ∅ (state_of ∅)).1
  = Raise interrupt.
Proof. reflexivity. Qed.


Lemma active_model_is_supported_witness :
  _model_name (model (self initial_state)) ∈ supported_models.
Proof.
  apply (active_model_is_supported (sdk := answering_sdk hello) initial_state).
  by apply (reachable_init "demo-project" default_location (world_of ∅)).
Defined.

Lemma chat_conversation_seeds_and_sends_witness :
  sdk_log (world (chat_conversation (sdk := answering_sdk hello)
                                    example_messages ∅ (state_of ∅)).2)
  = [SendMessage
       (start_chat (mkGenerativeModel "gemini-2.0-flash-exp")
          [mkContent "user" [from_text "Hello! Can you help me?"];
           mkContent "model" [from_text "Of course! What would you like to explore?"]])
       "What is supervised learning?"].
Proof.
  apply (chat_conversation_seeds_and_sends (sdk := answering_sdk hello)
           example_messages (message_dict "user" "What is supervised learning?") ∅
           (state_of ∅)).
  - reflexivity.
  - repeat constructor; by eexists.
  - reflexivity.
Defined.

Lemma missing_images_are_skipped_with_a_warning_witness :
  let run := generate_with_images (sdk := answering_sdk hello) "What is shown?"
               ["a.png"; "b.gif"; "c.JPG"] ∅ (state_of two_images) in
  stdout (world run.2) = ["Warning: Image file b.gif not found"]
  ∧ sdk_log (world run.2)
    = [GenerateContent (mkGenerativeModel "gemini-2.0-flash-exp")
         (ContentsList [ItemStr "What is shown?";
                        ItemPart (from_data [x89; x50] "image/png");
                        ItemPart (from_data [xff; xd8] "image/jpeg")])
         (generation_config_of ∅)]
  ∧ run.1 = Ok "Hello!".
Proof.
  destruct (missing_images_are_skipped_with_a_warning (sdk := answering_sdk hello)
              "What is shown?" ["a.png"; "b.gif"; "c.JPG"] ∅ (state_of two_images))
    as (Hout & Hlog & Hret & _).
  - repeat constructor; discriminate.
  - split; [exact Hout | split; [exact Hlog | exact Hret]].
Defined.

(** C5, the claim as it stands, at four references of which the third names
    a directory: [a.png] is a file that is read and [missing2.png] does not
    exist, yet no payload is sent, [missing2.png] gets no warning, and
    generation does not proceed: the call returns the error string. *)
Lemma directory_reference_ends_the_request :
  let image_paths := ["a.png"; "missing1.png"; "shots"; "missing2.png"] in
  let run := generate_with_images (sdk := answering_sdk hello) "What is shown?"
               image_paths ∅ (state_of files_with_directory) in
  files_with_directory !! "a.png" = Some (File [x89; x50])
  ∧ files_with_directory !! "missing2.png" = None
  ∧ stdout (world run.2) = ["Warning: Image file missing1.png not found"]
  ∧ sdk_log (world run.2) = []
  ∧ run.1 = Ok "Error generating text with images: [Errno 21] Is a directory: 'shots'"
  ∧ ¬ (stdout (world run.2) = missing_warnings files_with_directory image_paths
       ∧ sdk_log (world run.2)
         = [GenerateContent (mkGenerativeModel "gemini-2.0-flash-exp")
              (ContentsList
                 (ItemStr "What is shown?" :: image_parts files_with_directory image_paths))
              (generation_config_of ∅)]).
Proof.
  repeat split; try reflexivity. intros [_ Hsent]. discriminate Hsent.
Qed.

Lemma temporary_files_are_removed_witness :
  let s' := (analyze_images (sdk := answering_sdk hello) (st := rendering_st)
               (os := willing_os) two_uploads
               "What is shown?" (VFloat 0.7) (VInt 2048) (VFloat 0.95) (VInt 40)
               (state_of ∅)).2 in
  fs (world s') !! "temp_a.png" = None ∧ fs (world s') !! "temp_b.png" = None.
Proof.
  pose (s0 := (st_do (st := rendering_st) (StSpinner "Analyzing images...") (state_of ∅)).2).
  destruct (temporary_files_are_removed (sdk := answering_sdk hello) (st := rendering_st)
              (os := willing_os)
              two_uploads "What is shown?" (VFloat 0.7) (VInt 2048) (VFloat 0.95) (VInt 40)
              (state_of ∅) s0 ["temp_a.png"; "temp_b.png"]
              (save_uploads (os := willing_os) two_uploads s0).2)
    as (_ & _ & Hgone).
  - discriminate.
  - discriminate.
  - reflexivity.
  - reflexivity.
  - split; apply Hgone; repeat constructor.
Defined.

(** Both cases of what [generate_with_images] sends, with [temperature=0.3]:
    the request with the configuration when the references are two files and
    a missing one, and nothing when one of them names a directory. *)
Example generate_with_images_sends_the_configuration :
  sdk_log (world (generate_with_images (sdk := answering_sdk hello) "What is shown?"
                    ["a.png"; "b.gif"; "c.JPG"] {[ "temperature" := VFloat 0.3 ]}
                    (state_of two_images)).2)
  = [GenerateContent (mkGenerativeModel "gemini-2.0-flash-exp")
       (ContentsList [ItemStr "What is shown?";
                      ItemPart (from_data [x89; x50] "image/png");
                      ItemPart (from_data [xff; xd8] "image/jpeg")])
       (list_to_map [("temperature", VFloat 0.3); ("top_p", VFloat 0.95);
                     ("top_k", VInt 40); ("max_output_tokens", VInt 2048)])]
  ∧ sdk_log (world (generate_with_images (sdk := answering_sdk hello) "What is shown?"
                      ["a.png"; "shots"] {[ "temperature" := VFloat 0.3 ]}
                      (state_of files_with_directory)).2)
    = [].
Proof. split; reflexivity. Qed.

(** The failure path: [st.write] is interrupted; the interrupt goes through
    the handler and the temporary files are gone all the same. *)
Example interrupted_write_still_removes_files :
  let run := analyze_images (sdk := answering_sdk hello) (st := failing_write_st interrupt)
               (os := willing_os) two_uploads "What is shown?" (VFloat 0.7) (VInt 2048) (VFloat 0.95) (VInt 40)
               (state_of ∅) in
  run.1 = Raise interrupt
  ∧ fs (world run.2) !! "temp_a.png" = None ∧ fs (world run.2) !! "temp_b.png" = None.
Proof. repeat split; reflexivity. Qed.

(** C6: the handler at the uploads [a.png] and [b.png], where [temp_b.png]
    names a directory and [temp_a.png] nothing.  The loop that saves the
    uploads runs before the [try]: it creates [temp_a.png], the write of
    [temp_b.png] raises, the handler ends with that exception without
    entering the [finally] block and without calling the service, and the
    temporary file [temp_a.png] is still there with the bytes of the
    upload. *)
Theorem failed_save_leaves_earlier_file :
  let s := state_of {[ "temp_b.png" := Dir ]} in
  let run := analyze_images (sdk := answering_sdk hello) (st := rendering_st)
               (os := willing_os)
               two_uploads "What is shown?" (VFloat 0.7) (VInt 2048) (VFloat 0.95) (VInt 40)
               s in
  fs (world s) !! "temp_a.png" = None
  ∧ run.1 = Raise (mkExn IsADirectoryError "[Errno 21] Is a directory: 'temp_b.png'")
  ∧ sdk_log (world run.2) = []
  ∧ fs (world run.2) !! "temp_a.png" = Some (File [x89; x50]).
Proof. repeat split; reflexivity. Qed.

(** The same with an upload whose name has a directory part: the directory
    [temp_sub] does not exist, [open] fails, and [temp_a.png] stays. *)
Example upload_into_missing_directory_leaves_earlier_file :
  let run := analyze_images (sdk := answering_sdk hello) (st := rendering_st)
               (os := parent_checking_os)
               [mkUploadedFile "a.png" [x89; x50]; mkUploadedFile "sub/b.png" [x89]]
               "What is shown?" (VFloat 0.7) (VInt 2048) (VFloat 0.95) (VInt 40)
               (state_of ∅) in
  run.1 = Raise (mkExn FileNotFoundError
                       "[Errno 2] No such file or directory: 'temp_sub/b.png'")
  ∧ sdk_log (world run.2) = []
  ∧ fs (world run.2) !! "temp_a.png" = Some (File [x89; x50]).
Proof. repeat split; reflexivity. Qed.

(** The same on a full disk: the first write fails, and the file that [open]
    created for it stays, empty. *)
Example full_disk_leaves_an_empty_file :
  let run := analyze_images (sdk := answering_sdk hello) (st := rendering_st)
               (os := full_disk_os)
               two_uploads "What is shown?" (VFloat 0.7) (VInt 2048) (VFloat 0.95) (VInt 40)
               (state_of ∅) in
  run.1 = Raise (mkExn OSError "[Errno 28] No space left on device")
  ∧ sdk_log (world run.2) = []
  ∧ fs (world run.2) !! "temp_a.png" = Some (File []).
Proof. repeat split; reflexivity. Qed.

(** C7, the claim as it stands, at [photo.PNG]: the extension [.PNG] is not
    a key of the table, and the MIME type is image/png, not image/jpeg. *)
Lemma upper_case_extension_is_matched :
  (splitext "photo.PNG").2 = ".PNG"
  ∧ (".PNG" ∉ [".jpg"; ".jpeg"; ".png"; ".gif"; ".bmp"; ".webp"])
  ∧ _get_mime_type "photo.PNG" = "image/png"
  ∧ ¬ (∀ file_path,
         (splitext file_path).2 ∉ [".jpg"; ".jpeg"; ".png"; ".gif"; ".bmp"; ".webp"] →
         _get_mime_type file_path = "image/jpeg").
Proof.
  assert (Hnot : ".PNG" ∉ [".jpg"; ".jpeg"; ".png"; ".gif"; ".bmp"; ".webp"])
    by (by apply (bool_decide_unpack _)).
  repeat split; [exact Hnot|].
  intros Hclaim. specialize (Hclaim "photo.PNG" Hnot). discriminate Hclaim.
Qed.

(** * Further properties of the adapter *)

Section More_adapter_properties.
Context {sdk : VertexSDK}.


(** X2: the first message that lacks [role] or [content] stops
    [chat_conversation]: nothing is sent, nothing changes, and the call
    returns the error string with the quoted name of the missing key,
    [role] before [content]. *)
Theorem first_malformed_message_stops_chat_conversation
    before message after kwargs s
    (Hbefore : Forall has_role_and_content before)
    (Hmessage : ¬ has_role_and_content message) :
  chat_conversation (before ++ message :: after) kwargs s
  = (Ok ("Error in chat conversation: '" +:+ missing_key message +:+ "'"), s).
Proof.
  unfold chat_conversation.
  rewrite try_except_flatten, chat_conversation_body_run, for_fold_app.
  rewrite for_fold_add_message by done.
  rewrite for_fold_cons, add_message_run. unfold missing_key.
  destruct (message !! "role") as [r|] eqn:Hr; [|done].
  destruct (message !! "content") as [c|] eqn:Hc; [|done].
  destruct Hmessage. split; by eexists.
Qed.

(** X3: [chat_conversation] never looks at the role of the last message: for
    every history of well-formed messages followed by a well-formed last
    message of any role, the session is seeded with the turns of the history
    and the content of the last message is sent as the new message. *)
Theorem last_message_is_sent_whatever_its_role messages final kwargs s
    (Hkeys : Forall has_role_and_content (messages ++ [final])) :
  let chat := start_chat (model (self s)) (turn_of <$> messages) in
  chat_conversation (messages ++ [final]) kwargs s
  = (reply_of "Error in chat conversation: "
       (send_message_outcome (sdk_log (world s)) chat (message_content final)),
     mkState (self s) (logged (SendMessage chat (message_content final)) (world s))).
Proof.
  intros chat. subst chat.
  rewrite (chat_conversation_run _ final) by (done || by rewrite last_snoc).
  cbv zeta. rewrite fmap_app. simpl. by rewrite removelast_last.
Qed.

(** X5: [generate_text] and [generate_with_images] read four keys of
    [kwargs] and nothing else: two calls whose keyword arguments agree on
    these keys do the same, whatever other keys they carry. *)
Theorem other_keyword_arguments_are_dropped prompt image_paths kwargs kwargs' s
    (Hagree : Forall (λ k, kwargs !! k = kwargs' !! k) generation_keys) :
  generation_config_of kwargs = generation_config_of kwargs'
  ∧ generate_text prompt kwargs s = generate_text prompt kwargs' s
  ∧ generate_with_images prompt image_paths kwargs s
    = generate_with_images prompt image_paths kwargs' s.
Proof.
  assert (Hconfig : generation_config_of kwargs = generation_config_of kwargs').
  { unfold generation_config_of, dict_get.
    apply Forall_cons in Hagree as [-> Hagree].
    apply Forall_cons in Hagree as [-> Hagree].
    apply Forall_cons in Hagree as [-> Hagree].
    apply Forall_cons in Hagree as [-> _]. done. }
  split; [done|]. split.
  - by rewrite !generate_text_run, Hconfig.
  - unfold generate_with_images.
    by rewrite !try_except_flatten, !generate_with_images_body_run, Hconfig.
Qed.

(** X6: of two selections in a row the second decides: after two supported
    identifiers the adapter is the one [set_model] with the second alone
    gives, and an unsupported second identifier leaves the first selected. *)
Theorem last_selection_wins first second s
    (Hmodels : models (self s) = available_models)
    (Hfirst : first ∈ supported_models) :
  (second ∈ supported_models →
     self (set_model second (set_model first s).2).2 = self (set_model second s).2
     ∧ model (self (set_model second (set_model first s).2).2) = mkGenerativeModel second)
  ∧ (second ∉ supported_models →
     model (self (set_model second (set_model first s).2).2) = mkGenerativeModel first).
Proof.
  rewrite (set_model_supported first) by done. split.
  - intros Hsecond. by rewrite !(set_model_supported second).
  - intros Hsecond. rewrite set_model_unsupported; [done|]. simpl. by rewrite Hmodels.
Qed.

(** X7: in a reachable state no method asks the service for anything but a
    supported model: a method adds at most one call to the log, and the
    call is addressed to a handle built from a supported identifier. *)
Theorem service_is_asked_for_supported_models_only s c (Hs : reachable s) :
  sdk_log (world (state_after c s)) = sdk_log (world s)
  ∨ ∃ call model_name,
      model_name ∈ supported_models
      ∧ call_model call = Some (mkGenerativeModel model_name)
      ∧ sdk_log (world (state_after c s)) = sdk_log (world s) ++ [call].
Proof.
  destruct (method_log c s) as [Hlog|(call & Hmodel & Hlog)]; [by left|].
  right. exists call, (_model_name (model (self s))).
  split; [by apply reachable_invariant|]. split; [|done].
  rewrite Hmodel. by destruct (model (self s)).
Qed.

(** X8: whatever the path, [_get_mime_type] answers one of the five image
    types of its table. *)
Theorem mime_type_is_an_image_type file_path :
  _get_mime_type file_path
  ∈ ["image/jpeg"; "image/png"; "image/gif"; "image/bmp"; "image/webp"].
Proof.
  unfold _get_mime_type, dict_get. rewrite mime_types_lookup.
  repeat case_decide; simpl; set_solver.
Qed.

End More_adapter_properties.

(** * The temporary name of an upload and its MIME type *)

Lemma rfind_from_range c s : ∀ i,
  rfind_from c s i = -1
  ∨ i ≤ rfind_from c s i < i + Z.of_nat (String.length s).
Proof.
  induction s as [|d s IH]; intros i; simpl; [by left|].
  destruct (IH (i + 1)) as [->|Hr]; simpl.
  - destruct (Ascii.eqb c d); [right; lia|by left].
  - destruct (Z.geb_spec (rfind_from c s (i + 1)) 0); [right; lia|].
    destruct (Ascii.eqb c d); [right; lia|by left].
Qed.

Lemma rfind_from_shift c s : ∀ i k,
  0 ≤ i → 0 ≤ k →
  rfind_from c s (i + k)
  = if rfind_from c s i <? 0 then -1 else rfind_from c s i + k.
Proof.
  induction s as [|d s IH]; intros i k Hi Hk; simpl; [done|].
  replace (i + k + 1) with ((i + 1) + k) by lia.
  rewrite IH by lia.
  destruct (rfind_from_range c s (i + 1)) as [->|Hr]; simpl.
  - destruct (Ascii.eqb c d); [|done].
    destruct (Z.ltb_spec i 0); [lia|done].
  - destruct (Z.ltb_spec (rfind_from c s (i + 1)) 0); [lia|].
    destruct (Z.geb_spec (rfind_from c s (i + 1) + k) 0); [|lia].
    destruct (Z.geb_spec (rfind_from c s (i + 1)) 0); [|lia].
    destruct (Z.ltb_spec (rfind_from c s (i + 1)) 0); [lia|done].
Qed.

Lemma rfind_absent c s : ∀ i, contains_char c s = false → rfind_from c s i = -1.
Proof.
  induction s as [|d s IH]; intros i Hc; simpl in *; [done|].
  apply orb_false_iff in Hc as [Hd Hs]. by rewrite IH, Hd.
Qed.

Lemma rfind_from_head c d s i :
  0 ≤ i → rfind_from c (String d s) i = i → d = c.
Proof.
  simpl. intros Hi.
  destruct (rfind_from_range c s (i + 1)) as [->|Hr]; simpl.
  - destruct (Ascii.eqb_spec c d); [done|lia].
  - destruct (Z.geb_spec (rfind_from c s (i + 1)) 0); [lia|].
    destruct (Ascii.eqb_spec c d); [done|lia].
Qed.

(** The last [/] and the last dot of [temp_<name>] are those of [name],
    five characters further. *)
Lemma rfind_temp c name :
  c = "/"%char ∨ c = "."%char →
  rfind c ("temp_" +:+ name)
  = if rfind c name <? 0 then -1 else rfind c name + 5.
Proof.
  intros Hc. unfold rfind.
  assert (Hfive : rfind_from c ("temp_" +:+ name) 0
                  = if rfind_from c name 5 >=? 0 then rfind_from c name 5 else -1).
  { change ("temp_" +:+ name)
      with (String "t" (String "e" (String "m" (String "p" (String "_" name))))).
    destruct Hc as [-> | ->]; simpl; change (0 + 1 + 1 + 1 + 1 + 1) with 5;
      generalize (rfind_from "/" name 5), (rfind_from "." name 5); intros r r';
      [destruct (r >=? 0) eqn:E | destruct (r' >=? 0) eqn:E]; by rewrite ?E. }
  rewrite Hfive. change 5 with (0 + 5) at 1 2.
  rewrite (rfind_from_shift c name 0 5) by lia.
  destruct (rfind_from_range c name 0) as [->|Hr]; [done|].
  destruct (Z.ltb_spec (rfind_from c name 0) 0); [lia|].
  by destruct (Z.geb_spec (rfind_from c name 0 + 5) 0); [|lia].
Qed.

Lemma slice_from_temp name d :
  0 ≤ d → slice_from ("temp_" +:+ name) (d + 5) = slice_from name d.
Proof.
  intros Hd. unfold slice_from.
  replace (Z.to_nat (d + 5)) with (5 + Z.to_nat d)%nat by lia.
  change ("temp_" +:+ name)
    with (String "t" (String "e" (String "m" (String "p" (String "_" name))))).
  reflexivity.
Qed.

(** X9: the dashboard saves an upload under [temp_<name>], and the adapter
    types the saved file as it would type the upload: for every name without
    [/] that does not begin with a dot, [temp_<name>] has the extension, and
    so the MIME type, of [name]. *)
Theorem temporary_name_keeps_the_mime_type upload_name
    (Hbase : contains_char "/" upload_name = false)
    (Hvisible : startswith upload_name "." = false) :
  (splitext ("temp_" +:+ upload_name)).2 = (splitext upload_name).2
  ∧ _get_mime_type ("temp_" +:+ upload_name) = _get_mime_type upload_name.
Proof.
  assert (Hext : (splitext ("temp_" +:+ upload_name)).2 = (splitext upload_name).2).
  { assert (Hsep : rfind "/" upload_name = -1) by (by apply rfind_absent).
    pose proof (rfind_from_range "." upload_name 0) as Hrange.
    fold (rfind "." upload_name) in Hrange.
    unfold splitext. rewrite !rfind_temp by auto. rewrite Hsep.
    change (-1 <? 0) with true. cbv iota.
    destruct Hrange as [Hdot|Hdot]; [by rewrite Hdot|].
    destruct (Z.ltb_spec (rfind "." upload_name) 0); [lia|].
    assert (Hpos : 0 < rfind "." upload_name).
    { destruct upload_name as [|d rest]; [simpl in *; lia|].
      destruct (decide (rfind "." (String d rest) = 0)) as [Hzero|]; [|lia].
      apply rfind_from_head in Hzero as ->; [|lia]. by vm_compute in Hvisible. }
    destruct (Z.gtb_spec (rfind "." upload_name + 5) (-1)); [|lia].
    destruct (Z.gtb_spec (rfind "." upload_name) (-1)); [|lia].
    replace (Z.to_nat (rfind "." upload_name + 5 - (-1 + 1)))
      with (S (Z.to_nat (rfind "." upload_name + 4))) by lia.
    replace (Z.to_nat (rfind "." upload_name - (-1 + 1)))
      with (S (Z.to_nat (rfind "." upload_name - 1))) by lia.
    assert (Hhead : non_dot_before upload_name (-1 + 1)
                      (S (Z.to_nat (rfind "." upload_name - 1))) = true).
    { destruct upload_name as [|d rest]; [done|].
      cbn [non_dot_before].
      replace (char_at (String d rest) (-1 + 1)) with (String d "") by (by destruct rest).
      destruct (String.eqb_spec (String d "") ".") as [[= ->]|]; [|done].
      by vm_compute in Hvisible. }
    rewrite Hhead.
    change ("temp_" +:+ upload_name)
      with (String "t" (String "e" (String "m" (String "p" (String "_" upload_name))))) at 1.
    simpl. by rewrite slice_from_temp by lia. }
  split; [done|]. unfold _get_mime_type. by rewrite Hext.
Qed.

(** * The command-line loop *)

Section CommandLine_properties.
Context {sdk : VertexSDK}.

(** [l[i]] for a list of two: the indices 0 and 1, and -2 and -1 from the
    end; any other index is out of range. *)
Lemma getitem_two {A} (x y : A) (i : Z) :
  getitem [x; y] i
  = if decide (i = 0 ∨ i = -2) then Ok x
    else if decide (i = 1 ∨ i = -1) then Ok y
    else Raise (mkExn IndexError "list index out of range").
Proof.
  destruct (decide (i = 0 ∨ i = -2)) as [[->| ->]|H0]; [done..|].
  destruct (decide (i = 1 ∨ i = -1)) as [[->| ->]|H1]; [done..|].
  unfold getitem. change (Z.of_nat (length [x; y])) with 2.
  destruct (Z.ltb_spec i 0).
  - destruct (Z.ltb_spec (i + 2) 0); [done|].
    destruct (Z.leb_spec 2 (i + 2)); [done|]. lia.
  - destruct (Z.ltb_spec i 0); [lia|].
    destruct (Z.leb_spec 2 i); [done|]. lia.
Qed.

Lemma print_models_run s :
  models (self s) = available_models →
  print_models s
  = (Ok tt,
     mkState (self s)
       (set_stdout (stdout (world s)
                    ++ ["Available models:"; "1. gemini-2.0-flash-exp";
                        "2. gemini-2.0-flash-thinking-exp"])
                   (world s))).
Proof.
  intros Hmodels. unfold print_models. run_monad. rewrite Hmodels.
  destruct s as [a [f o c u]]. simpl. unfold print. run_monad.
  unfold set_stdout. simpl. rewrite <- !app_assoc. reflexivity.
Qed.

(** X10: the menu of models never raises, and the number typed is used as a
    Python index after subtracting one: 1 and 2 select the first and the
    second model, 0 selects the last one and -1 the first, and every other
    number, like every text that is no number, prints "Invalid model
    selection" and leaves the adapter as it was. *)
Theorem model_menu_accepts_zero_and_minus_one model_choice parsed s
    (Hmodels : models (self s) = available_models) :
  cli_switch_model model_choice parsed s
  = (Ok tt,
     mkState
       (match chosen_model parsed with
        | Some model_name => with_model (self s) model_name
        | None => self s
        end)
       (set_stdout
          (stdout (world s)
           ++ ["Available models:"; "1. gemini-2.0-flash-exp";
               "2. gemini-2.0-flash-thinking-exp"; "Enter model number: ";
               match chosen_model parsed with
               | Some model_name => "Model set to: " +:+ model_name
               | None => "Invalid model selection"
               end])
          (world s))).
Proof.
  unfold cli_switch_model. unfold mbind at 1, M_bind at 1.
  rewrite print_models_run by done.
  destruct s as [a [f o c u]]. simpl in Hmodels.
  unfold input_prompt, print, try_except_classes. run_monad. rewrite Hmodels.
  unfold set_stdout. simpl. rewrite <- !app_assoc. simpl.
  destruct parsed as [n|]; simpl; [|by rewrite <- !app_assoc].
  change (odict_keys available_models)
    with ["gemini-2.0-flash-exp"; "gemini-2.0-flash-thinking-exp"].
  rewrite getitem_two.
  destruct (decide (n = 1 ∨ n = -1)) as [Hn|Hn].
  - rewrite decide_True by lia.
    unfold set_model, odict_contains. run_monad. rewrite Hmodels. simpl.
    unfold with_model, set_stdout. simpl. by rewrite <- !app_assoc, Hmodels.
  - rewrite decide_False by lia.
    destruct (decide (n = 2 ∨ n = 0)) as [Hm|Hm].
    + rewrite decide_True by lia.
      unfold set_model, odict_contains. run_monad. rewrite Hmodels. simpl.
      unfold with_model, set_stdout. simpl. by rewrite <- !app_assoc, Hmodels.
    + rewrite decide_False by lia. simpl. by rewrite <- !app_assoc.
Qed.

Lemma message_of_well_formed r c : has_role_and_content (message_of r c).
Proof. split; by eexists. Qed.

Lemma message_of_content r c : message_content (message_of r c) = c.
Proof. done. Qed.

Lemma turn_of_user c : turn_of (message_of "user" c) = mkContent "user" [from_text c].
Proof. done. Qed.

Lemma turn_of_assistant c :
  turn_of (message_of "assistant" c) = mkContent "model" [from_text c].
Proof. done. Qed.

(** One turn of the chat loop on a history of well-formed messages. *)
Lemma cli_chat_turn_run messages user_input s :
  Forall has_role_and_content messages →
  let chat := start_chat (model (self s)) (turn_of <$> messages) in
  let thinking := set_stdout (stdout (world s) ++ ["🤖 Thinking..."]) (world s) in
  cli_chat_turn messages user_input s
  = match reply_of "Error in chat conversation: "
            (send_message_outcome (sdk_log (world s)) chat user_input) with
    | Ok response =>
        (Ok (messages ++ [message_of "user" user_input; message_of "assistant" response]),
         mkState (self s)
           (set_stdout (stdout thinking ++ ["Assistant: " +:+ response])
                       (logged (SendMessage chat user_input) thinking)))
    | Raise e =>
        (Raise e, mkState (self s) (logged (SendMessage chat user_input) thinking))
    end.
Proof.
  intros Hwf chat thinking. unfold cli_chat_turn.
  unfold mbind at 1, M_bind at 1. unfold print at 1. run_monad.
  rewrite (chat_conversation_run _ (message_of "user" user_input));
    [| by rewrite last_snoc
     | apply Forall_app; split; [done|]; repeat constructor; by eexists ].
  rewrite fmap_app. simpl. rewrite removelast_last.
  fold chat. fold thinking.
  destruct (reply_of _ _) as [response|e]; [|done].
  simpl. by rewrite <- app_assoc.
Qed.

(** X11: a turn that fails is recorded like an answer: when the service
    raises an exception during a turn of the chat loop, the error string is
    printed as the assistant's answer and appended to the history as an
    assistant message, so that the next turn replays it to the service as a
    turn of the model. *)
Theorem failed_turn_enters_the_history messages user_input s e
    (Hkeys : Forall has_role_and_content messages)
    (He : isinstance_Exception e = true)
    (Hfails : send_message_outcome (sdk_log (world s))
                (start_chat (model (self s)) (turn_of <$> messages)) user_input
              = Raise e) :
  let answer := "Error in chat conversation: " +:+ str e in
  (cli_chat_turn messages user_input s).1
  = Ok (messages ++ [message_of "user" user_input; message_of "assistant" answer])
  ∧ stdout (world (cli_chat_turn messages user_input s).2)
    = stdout (world s) ++ ["🤖 Thinking..."; "Assistant: " +:+ answer]
  ∧ turn_of <$> (messages ++ [message_of "user" user_input; message_of "assistant" answer])
    = (turn_of <$> messages)
      ++ [mkContent "user" [from_text user_input]; mkContent "model" [from_text answer]].
Proof.
  intros answer. rewrite cli_chat_turn_run by done. cbv zeta.
  rewrite Hfails. unfold reply_of. rewrite isinstance_Exception_caught by done.
  simpl. split; [done|]. split; [by rewrite <- app_assoc|].
  by rewrite fmap_app.
Qed.

(** X12: the chat loop replays the whole history at every turn.  Started on
    a history of well-formed messages, a run of the loop that returns has
    made exactly one call per line typed before the first [quit], in order:
    the call of line [k] sends that line on a new session seeded with the
    turns of the first [length messages + 2 * k] messages of the history
    returned, that is the initial history and the question and answer of
    every earlier line.  The history returned is the initial one followed by
    the question and the answer of each line, and the adapter is as it
    was. *)
Theorem chat_loop_replays_the_history inputs : ∀ messages s history
    (Hkeys : Forall has_role_and_content messages)
    (Hreturns : (cli_chat_loop inputs messages s).1 = Ok history),
  let lines := lines_before_quit inputs in
  let seed (k : nat) := turn_of <$> take (length messages + 2 * k) history in
  sdk_log (world (cli_chat_loop inputs messages s).2)
  = sdk_log (world s)
    ++ imap (λ k line, SendMessage (start_chat (model (self s)) (seed k)) line) lines
  ∧ length history = (length messages + 2 * length lines)%nat
  ∧ take (length messages) history = messages
  ∧ (∀ k line, lines !! k = Some line →
       history !! (length messages + 2 * k)%nat = Some (message_of "user" line)
       ∧ ∃ answer,
           history !! (length messages + 2 * k + 1)%nat
           = Some (message_of "assistant" answer))
  ∧ self (cli_chat_loop inputs messages s).2 = self s.
Proof.
  induction inputs as [|line inputs IH]; intros messages s history Hkeys Hreturns.
  - simpl in *. injection Hreturns as <-. rewrite app_nil_r, firstn_all.
    repeat split; try done; lia.
  - simpl in *. revert Hreturns.
    unfold mbind at 1 2, M_bind at 1 2. unfold input_prompt, print at 1 2. run_monad.
    destruct (String.eqb (lower line) "quit").
    { simpl. intros [= <-]. rewrite app_nil_r, firstn_all.
      repeat split; try done; lia. }
    rewrite cli_chat_turn_run by done. simpl.
    set (chat := start_chat (model (self s)) (turn_of <$> messages)).
    destruct (reply_of _ _) as [response|e]; [|done].
    set (messages' := messages ++ [message_of "user" line; message_of "assistant" response]).
    assert (Hkeys' : Forall has_role_and_content messages').
    { apply Forall_app. split; [done|]. repeat constructor; by eexists. }
    assert (Hlength : length messages' = (length messages + 2)%nat)
      by (subst messages'; rewrite length_app; simpl; lia).
    match goal with
    | |- context [cli_chat_loop inputs messages' ?s1] =>
        intros Hreturns;
        destruct (IH messages' s1 history Hkeys' Hreturns)
          as (Hlog & Hcount & Htake & Hlines & Hself)
    end.
    simpl in Hlog, Hself.
    assert (Htake0 : take (length messages) history = messages).
    { transitivity (take (length messages) (take (length messages') history)).
      - rewrite take_take. f_equal. lia.
      - rewrite Htake. apply take_app_length. }
    assert (Hquestion : history !! length messages = Some (message_of "user" line)).
    { rewrite <- (take_drop (length messages') history), Htake.
      rewrite lookup_app_l by lia. subst messages'.
      rewrite lookup_app_r by lia. by rewrite Nat.sub_diag. }
    assert (Hanswer : history !! S (length messages)
                      = Some (message_of "assistant" response)).
    { rewrite <- (take_drop (length messages') history), Htake.
      rewrite lookup_app_l by lia. subst messages'.
      rewrite lookup_app_r by lia.
      by replace (S (length messages) - length messages)%nat with 1%nat by lia. }
    split; [|split; [|split; [done|split; [|done]]]].
    + rewrite Hlog, <- app_assoc. f_equal. simpl. f_equal.
      * by rewrite Nat.add_0_r, Htake0.
      * apply imap_ext. intros k text _. simpl. do 4 f_equal. lia.
    + rewrite Hcount. simpl. lia.
    + intros [|k] text Htext; simpl in Htext.
      * injection Htext as <-. rewrite Nat.add_0_r. split; [done|].
        exists response. by rewrite Nat.add_1_r.
      * destruct (Hlines k text Htext) as [Hq (answer & Ha)]. split.
        -- rewrite <- Hq. f_equal. lia.
        -- exists answer. rewrite <- Ha. f_equal. lia.
Qed.

Lemma split_from_length sep s : ∀ current,
  length (split_from sep s current) = S (count_char sep s).
Proof.
  induction s as [|c s IH]; intros current; simpl; [done|].
  rewrite (Ascii.eqb_sym sep c).
  destruct (Ascii.eqb c sep); simpl; by rewrite IH.
Qed.

(** X22: the line of image paths always yields one path more than it has
    commas, so never none: on the empty line the adapter is given the one
    path [""], which names no file, prints its warning and calls the
    service with the prompt alone. *)
Theorem empty_line_of_paths_is_one_empty_path prompt paths_line s :
  length (strip <$> str_split "," paths_line) = S (count_char "," paths_line)
  ∧ (paths_line = "" → fs (world s) !! "" = None →
     sdk_log (world (cli_generate_with_images prompt paths_line s).2)
     = sdk_log (world s)
       ++ [GenerateContent (model (self s)) (ContentsList [ItemStr prompt])
                           (generation_config_of ∅)]
     ∧ "Warning: Image file  not found"
       ∈ stdout (world (cli_generate_with_images prompt paths_line s).2)).
Proof.
  split.
  - rewrite length_fmap. apply split_from_length.
  - intros -> Hnone. destruct s as [a [f o c u]]. simpl in Hnone.
    unfold cli_generate_with_images.
    unfold input_prompt, print. run_monad.
    change (strip "") with "".
    rewrite generate_with_images_run
      by (simpl; intros p ->%list_elem_of_singleton; by rewrite Hnone).
    unfold reply_of. simpl. unfold image_parts, missing_warnings. simpl.
    rewrite Hnone. simpl.
    destruct (flatten _ _); simpl; (split; [done|]); set_solver.
Qed.

End CommandLine_properties.

(** * The dashboard's handlers *)

Section Handler_properties.
Context {sdk : VertexSDK} {st : Streamlit} {os : OperatingSystem}.

(** X13: the dashboard announces success whatever the adapter returned:
    when the service raises an exception for a non-empty prompt and
    Streamlit renders every call, the handler of the Generate button still
    shows "Response generated!" and then writes the error string as the
    response. *)
Theorem success_is_announced_on_failure prompt t m p k s e
    (Hrenders : renders st)
    (Hprompt : prompt ≠ "")
    (He : isinstance_Exception e = true)
    (Hfails : generate_content_outcome (sdk_log (world s)) (model (self s))
                (ContentsStr prompt) (generation_config_of (slider_kwargs t m p k))
              = Raise e) :
  (generate_text_clicked prompt t m p k s).1 = Ok tt
  ∧ st_log (world (generate_text_clicked prompt t m p k s).2)
    = st_log (world s)
      ++ [StSpinner "Generating response..."; StSuccess "✅ Response generated!";
          StMarkdown "### Response:"; StWrite ("Error generating text: " +:+ str e)].
Proof.
  unfold generate_text_clicked.
  destruct (String.eqb_spec prompt "") as [|_]; [done|]. simpl.
  unfold mbind, M_bind. rewrite st_do_run, (Hrenders _ _).
  rewrite generate_text_run. simpl. rewrite Hfails. unfold reply_of.
  rewrite isinstance_Exception_caught by done.
  rewrite !st_do_run, !(Hrenders _ _). simpl.
  split; [done|]. by rewrite <- !app_assoc.
Qed.

(** X14: unlike the adapter, the dashboard lets no empty input through: with
    an empty prompt the Generate handler, and with no upload or an empty
    prompt the Analyze handler, make no call to the service and touch no
    file, whatever Streamlit does with the error they show. *)
Theorem dashboard_stops_empty_input uploaded_files prompt t m p k s :
  (sdk_log (world (generate_text_clicked "" t m p k s).2) = sdk_log (world s)
   ∧ fs (world (generate_text_clicked "" t m p k s).2) = fs (world s)
   ∧ st_log (world (generate_text_clicked "" t m p k s).2)
     = st_log (world s) ++ [StError "Please enter a prompt"])
  ∧ (uploaded_files = [] ∨ prompt = "" →
     sdk_log (world (analyze_images uploaded_files prompt t m p k s).2) = sdk_log (world s)
     ∧ fs (world (analyze_images uploaded_files prompt t m p k s).2) = fs (world s)
     ∧ st_log (world (analyze_images uploaded_files prompt t m p k s).2)
       = st_log (world s) ++ [StError "Please upload images and enter a prompt"]).
Proof.
  split; [done|]. intros Hempty. unfold analyze_images.
  assert (Hguard : negb (bool_decide (uploaded_files = [])) && negb (String.eqb prompt "")
                   = false).
  { destruct Hempty as [-> | ->]; [done|]. apply andb_false_r. }
  by rewrite Hguard.
Qed.

End Handler_properties.

(** * Uploads that share a name *)

Section Upload_properties.
Context {sdk : VertexSDK} {st : Streamlit} {os : OperatingSystem}.

Lemma temp_path_inj a b : "temp_" +:+ a = "temp_" +:+ b → a = b.
Proof. intros H. by injection H. Qed.

(** What a temporary path holds once the uploads are saved: the bytes of the
    last upload of that name. *)
Lemma lookup_saved_uploads uploaded_files (files : gmap string node) upload_name :
  foldl (λ f u, <["temp_" +:+ name u := File (getbuffer u)]> f) files uploaded_files
    !! ("temp_" +:+ upload_name)
  = match last (filter (λ v, name v = upload_name) uploaded_files) with
    | Some v => Some (File (getbuffer v))
    | None => files !! ("temp_" +:+ upload_name)
    end.
Proof.
  induction uploaded_files as [|v l IH] using rev_ind; [done|].
  rewrite foldl_app, filter_app. simpl.
  destruct (decide (name v = upload_name)) as [Hname|Hname].
  - rewrite filter_cons_True by done. rewrite filter_nil, last_snoc.
    rewrite Hname. apply lookup_insert_eq.
  - rewrite filter_cons_False by done. rewrite filter_nil, app_nil_r.
    rewrite lookup_insert_ne; [apply IH|].
    intros Heq. by apply temp_path_inj in Heq.
Qed.

Lemma image_parts_cons (files : gmap string node) p l :
  image_parts files (p :: l)
  = match files !! p with
    | Some (File data) => [ItemPart (from_data data (_get_mime_type p))]
    | _ => []
    end ++ image_parts files l.
Proof. reflexivity. Qed.

Lemma image_parts_saved_uploads uploaded_files (files : gmap string node) l :
  (∀ u, u ∈ l → u ∈ uploaded_files) →
  image_parts
    (foldl (λ f u, <["temp_" +:+ name u := File (getbuffer u)]> f) files uploaded_files)
    ((λ u, "temp_" +:+ name u) <$> l)
  = (λ u, ItemPart (from_data (last_upload_named uploaded_files u)
                              (_get_mime_type ("temp_" +:+ name u)))) <$> l.
Proof.
  induction l as [|u l IH]; intros Hsub; [done|].
  rewrite !fmap_cons, image_parts_cons, IH by (intros v Hv; apply Hsub; by right).
  rewrite lookup_saved_uploads. unfold last_upload_named.
  destruct (last (filter (λ v, name v = name u) uploaded_files)) as [v|] eqn:Hlast; [done|].
  apply last_None in Hlast.
  assert (Hin : u ∈ filter (λ v, name v = name u) uploaded_files).
  { apply list_elem_of_filter. split; [done|]. apply Hsub. by left. }
  rewrite Hlast in Hin. by apply elem_of_nil in Hin.
Qed.

(** The [try ... finally] statement adds to the SDK log what its adapter
    call adds. *)
Lemma analyze_saved_images_sdk_log vision_prompt temp_paths t m p k s :
  (∀ path, path ∈ temp_paths → fs (world s) !! path ≠ Some Dir) →
  sdk_log (world (analyze_saved_images vision_prompt temp_paths t m p k s).2)
  = sdk_log (world (generate_with_images vision_prompt temp_paths
                      (slider_kwargs t m p k) s).2).
Proof.
  intros Hfiles. unfold analyze_saved_images, try_finally.
  pose proof (analyze_try_block_frame vision_prompt temp_paths (slider_kwargs t m p k) s)
    as Hfs.
  assert (Hlog :
    sdk_log (world ((response ← generate_with_images vision_prompt temp_paths
                                  (slider_kwargs t m p k);
                     st_do (StSuccess "✅ Analysis complete!");;
                     st_do (StMarkdown "### Analysis Result:");;
                     st_do (StWrite response)) s).2)
    = sdk_log (world (generate_with_images vision_prompt temp_paths
                        (slider_kwargs t m p k) s).2)).
  { unfold mbind at 1, M_bind at 1.
    destruct (generate_with_images vision_prompt temp_paths (slider_kwargs t m p k) s)
      as [[response|e] s1]; [|done].
    unfold mbind, M_bind. rewrite !st_do_run. simpl.
    destruct (st_outcome _ (StSuccess _)); [|done].
    by destruct (st_outcome _ (StMarkdown _)). }
  destruct ((response ← generate_with_images vision_prompt temp_paths (slider_kwargs t m p k);
             st_do (StSuccess "✅ Analysis complete!");;
             st_do (StMarkdown "### Analysis Result:");;
             st_do (StWrite response)) s) as [r s2].
  simpl in Hfs, Hlog.
  rewrite remove_temp_files_run by (by rewrite Hfs).
  simpl. exact Hlog.
Qed.

(** X15: two uploads of one name share a temporary file: when the spinner
    opens and the loop that saves the uploads completes, the service receives
    one part per upload, in order, and the part of an upload holds the bytes
    of the last upload that has its name. *)
Theorem uploads_of_one_name_share_a_file
    uploaded_files vision_prompt t m p k s s0 temp_paths s1
    (Hfiles : uploaded_files ≠ [])
    (Hprompt : vision_prompt ≠ "")
    (Hspinner : st_do (StSpinner "Analyzing images...") s = (Ok tt, s0))
    (Hsaved : save_uploads uploaded_files s0 = (Ok temp_paths, s1)) :
  sdk_log (world (analyze_images uploaded_files vision_prompt t m p k s).2)
  = sdk_log (world s)
    ++ [GenerateContent (model (self s))
          (ContentsList
             (ItemStr vision_prompt
              :: ((λ u, ItemPart (from_data (last_upload_named uploaded_files u)
                                            (_get_mime_type ("temp_" +:+ name u))))
                    <$> uploaded_files)))
          (generation_config_of (slider_kwargs t m p k))].
Proof.
  unfold analyze_images.
  rewrite bool_decide_eq_false_2 by done.
  destruct (String.eqb_spec vision_prompt "") as [|_]; [done|]. simpl.
  unfold mbind at 1, M_bind at 1. rewrite Hspinner.
  unfold mbind at 1, M_bind at 1. rewrite Hsaved.
  unfold save_uploads in Hsaved.
  apply for_fold_save_upload_returns in Hsaved as [-> ->]. simpl app.
  rewrite st_do_run in Hspinner. injection Hspinner as _ <-.
  assert (Hfile : ∀ path (files : gmap string node),
            path ∈ (λ u, "temp_" +:+ name u) <$> uploaded_files →
            foldl (λ f u, <["temp_" +:+ name u := File (getbuffer u)]> f) files uploaded_files
              !! path ≠ Some Dir).
  { intros path files (u & -> & Hu)%list_elem_of_fmap.
    rewrite lookup_saved_uploads.
    destruct (last (filter (λ v, name v = name u) uploaded_files)) as [v|] eqn:Hlast; [done|].
    apply last_None in Hlast.
    assert (Hin : u ∈ filter (λ v, name v = name u) uploaded_files)
      by (by apply list_elem_of_filter).
    rewrite Hlast in Hin. by apply elem_of_nil in Hin. }
  rewrite analyze_saved_images_sdk_log by (intros path Hpath; by apply Hfile).
  rewrite generate_with_images_run by (intros path Hpath; by apply Hfile).
  simpl. by rewrite image_parts_saved_uploads.
Qed.

End Upload_properties.

(** * The session of the dashboard *)

Section Session_properties.
Context {sdk : VertexSDK} {st : Streamlit} {credentials : Credentials}.

(** X4: the chat never uses the generation parameters: [chat_conversation]
    does the same whatever its keyword arguments, so the Send handler does
    the same whatever the sliders show; on a session that holds a client and
    a history of well-formed messages, a non-empty input is sent, once the
    spinner opens, on a session seeded with the whole history, and no
    configuration travels with it. *)
Theorem chat_ignores_the_sliders user_input t m p k t' m' p' k' d client
    (Hclient : gemini_client (session d) = Some client)
    (Hkeys : Forall has_role_and_content (chat_history (session d)))
    (Hinput : user_input ≠ "")
    (Hspinner : st_outcome (st_log (dashboard_world d)) (StSpinner "Thinking...") = Ok tt) :
  send_clicked user_input t m p k d = send_clicked user_input t' m' p' k' d
  ∧ (∀ messages kwargs s,
       chat_conversation messages kwargs s = chat_conversation messages ∅ s)
  ∧ sdk_log (dashboard_world (send_clicked user_input t m p k d).2)
    = sdk_log (dashboard_world d)
      ++ [SendMessage (start_chat (model client) (turn_of <$> chat_history (session d)))
                      user_input].
Proof.
  split; [done|]. split; [done|].
  unfold send_clicked. destruct (String.eqb_spec user_input "") as [|_]; [done|]. simpl.
  unfold mbind, D_bind, append_chat_history, in_world, get_session, call_client, st_emit.
  simpl. rewrite Hspinner, Hclient.
  rewrite (chat_conversation_run _ (message_of "user" user_input));
    [| by rewrite last_snoc
     | apply Forall_app; split; [done|]; repeat constructor; by eexists ].
  rewrite fmap_app. simpl. rewrite removelast_last.
  by destruct (reply_of _ _).
Qed.

Lemma initialize_gemini_empty w :
  initialize_gemini "" w
  = (match st_outcome (st_log w)
             (StError "Please enter your Google Cloud Project ID in the sidebar") with
     | Ok _ => Ok None
     | Raise e => Raise e
     end,
     set_st_log (st_log w
                 ++ [StError "Please enter your Google Cloud Project ID in the sidebar"]) w).
Proof.
  unfold initialize_gemini. simpl. unfold mbind, W_bind, st_emit.
  by destruct (st_outcome _ _).
Qed.

(** The [try] block of [initialize_gemini]. *)
Lemma initialize_gemini_body project_id w :
  ((store_credentials;;
    client ← __init__ project_id default_location;
    mret (Some client)) : W (option GeminiVertexAI)) w
  = match store_credentials w with
    | (Ok _, w1) =>
        (match vertexai_init_outcome (sdk_log w1) project_id default_location with
         | Ok _ =>
             Ok (Some (mkGeminiVertexAI project_id default_location available_models
                                        (mkGenerativeModel "gemini-2.0-flash-exp")))
         | Raise e => Raise e
         end,
         logged (VertexaiInit project_id default_location) w1)
    | (Raise e, w1) => (Raise e, w1)
    end.
Proof.
  unfold mbind, W_bind. destruct (store_credentials w) as [[[]|e] w1]; [|done].
  unfold __init__. by destruct (vertexai_init_outcome _ _ _).
Qed.

(** X16: what [initialize_gemini] can answer when Streamlit renders every
    call: it raises no exception that is an instance of [Exception]; a client
    it returns is the adapter for the session's project in [us-central1]
    with the default model active; with an empty project identifier it
    returns [None] after its error message, without storing credentials or
    calling the SDK. *)
Theorem initialize_gemini_outcomes project_id w (Hrenders : renders st) :
  (∀ e, isinstance_Exception e = true → (initialize_gemini project_id w).1 ≠ Raise e)
  ∧ (∀ client, (initialize_gemini project_id w).1 = Ok (Some client) →
       project_id ≠ ""
       ∧ client = mkGeminiVertexAI project_id "us-central1" available_models
                                   (mkGenerativeModel "gemini-2.0-flash-exp"))
  ∧ (project_id = "" →
     initialize_gemini project_id w
     = (Ok None,
        set_st_log (st_log w
                    ++ [StError "Please enter your Google Cloud Project ID in the sidebar"])
                   w)).
Proof.
  split; [|split].
  - intros e He. destruct (String.eqb_spec project_id "") as [->|Hne].
    + rewrite initialize_gemini_empty, (Hrenders _ _). done.
    + unfold initialize_gemini. apply String.eqb_neq in Hne. rewrite Hne.
      unfold try_except_W. rewrite initialize_gemini_body.
      destruct (store_credentials w) as [[[]|e1] w1].
      * destruct (vertexai_init_outcome _ _ _) as [[]|e2]; [done|].
        destruct (isinstance_Exception e2) eqn:He2.
        -- unfold mbind, W_bind, st_emit. rewrite (Hrenders _ _). done.
        -- simpl. congruence.
      * destruct (isinstance_Exception e1) eqn:He1.
        -- unfold mbind, W_bind, st_emit. rewrite (Hrenders _ _). done.
        -- simpl. congruence.
  - intros client. destruct (String.eqb_spec project_id "") as [->|Hne].
    + rewrite initialize_gemini_empty, (Hrenders _ _). done.
    + unfold initialize_gemini. apply String.eqb_neq in Hne as Hne'. rewrite Hne'.
      unfold try_except_W. rewrite initialize_gemini_body.
      destruct (store_credentials w) as [[[]|e1] w1].
      * destruct (vertexai_init_outcome _ _ _) as [[]|e2].
        -- simpl. by intros [= <-].
        -- destruct (isinstance_Exception e2); [|done].
           unfold mbind, W_bind, st_emit. by rewrite (Hrenders _ _).
      * destruct (isinstance_Exception e1); [|done].
        unfold mbind, W_bind, st_emit. by rewrite (Hrenders _ _).
  - intros ->. by rewrite initialize_gemini_empty, (Hrenders _ _).
Qed.

(** The Initialize button when the credentials are stored and Streamlit
    renders every call. *)
Lemma initialize_clicked_run d w1 :
  renders st →
  session_project_id (session d) ≠ "" →
  store_credentials (dashboard_world d) = (Ok tt, w1) →
  let project_id := session_project_id (session d) in
  let initialized := logged (VertexaiInit project_id default_location) w1 in
  initialize_clicked d
  = match vertexai_init_outcome (sdk_log w1) project_id default_location with
    | Ok _ =>
        (Ok tt,
         mkDashboard
           (mkSessionState
              (Some (mkGeminiVertexAI project_id default_location available_models
                                      (mkGenerativeModel "gemini-2.0-flash-exp")))
              (chat_history (session d)) (current_model (session d)) project_id)
           (set_st_log (st_log initialized
                        ++ [StSuccess "✅ Gemini client initialized successfully!"])
                       initialized))
    | Raise e =>
        if isinstance_Exception e
        then (Ok tt,
              mkDashboard
                (mkSessionState None (chat_history (session d)) (current_model (session d))
                                project_id)
                (set_st_log (st_log initialized
                             ++ [StError ("Failed to initialize Gemini client: " +:+ str e)])
                            initialized))
        else (Raise e, mkDashboard (session d) initialized)
    end.
Proof.
  intros Hrenders Hne Hstore project_id initialized.
  unfold initialize_clicked. unfold mbind at 1, D_bind at 1. simpl.
  unfold mbind at 1, D_bind at 1, in_world at 1.
  unfold initialize_gemini. apply String.eqb_neq in Hne. rewrite Hne.
  unfold try_except_W. rewrite initialize_gemini_body, Hstore.
  fold project_id. fold initialized.
  destruct (vertexai_init_outcome _ _ _) as [[]|e].
  - unfold mbind, D_bind, set_gemini_client, in_world, st_emit. simpl.
    by rewrite (Hrenders _ _).
  - destruct (isinstance_Exception e); [|done].
    unfold mbind, W_bind, D_bind, st_emit. simpl. by rewrite (Hrenders _ _).
Qed.

(** X17: initializing again resets the model and keeps the selection: after
    a successful click on Initialize the session holds a fresh client whose
    active model is the default one, while [current_model] is what it was;
    the select box then shows [current_model], and selecting what it shows
    changes nothing, so a session that had switched models now displays one
    model and generates with another. *)
Theorem reinitialization_keeps_the_selection_only d w1
    (Hrenders : renders st)
    (Hproject : session_project_id (session d) ≠ "")
    (Hstore : store_credentials (dashboard_world d) = (Ok tt, w1))
    (Hinit : vertexai_init_outcome (sdk_log w1) (session_project_id (session d))
                                   default_location = Ok tt) :
  let d1 := (initialize_clicked d).2 in
  (∃ client, gemini_client (session d1) = Some client
             ∧ model client = mkGenerativeModel "gemini-2.0-flash-exp")
  ∧ current_model (session d1) = current_model (session d)
  ∧ (current_model (session d) ∈ supported_models →
     supported_models !! selectbox_index supported_models (current_model (session d))
     = Some (current_model (session d)))
  ∧ model_selected (current_model (session d)) d1 = (Ok tt, d1).
Proof.
  intros d1. subst d1. rewrite (initialize_clicked_run d w1) by done. cbv zeta.
  rewrite Hinit. simpl. split; [by eexists|]. split; [done|]. split.
  - intros Hin. unfold selectbox_index. rewrite bool_decide_eq_true_2 by done.
    unfold supported_models, odict_keys, available_models in *. simpl in *.
    apply elem_of_cons in Hin as [->|Hin]; [done|].
    apply elem_of_cons in Hin as [->|Hin]; [done|].
    by apply elem_of_nil in Hin.
  - unfold model_selected, mbind, D_bind, get_session. simpl.
    by rewrite String.eqb_refl.
Qed.

(** X18: a failed initialization costs the session its client: when the
    constructor raises an exception, the click on Initialize still returns,
    shows the cause, and leaves [gemini_client] at [None], whatever client
    the session held; the history and the selection are kept. *)
Theorem failed_initialization_drops_the_client d w1 e
    (Hrenders : renders st)
    (Hproject : session_project_id (session d) ≠ "")
    (Hstore : store_credentials (dashboard_world d) = (Ok tt, w1))
    (He : isinstance_Exception e = true)
    (Hinit : vertexai_init_outcome (sdk_log w1) (session_project_id (session d))
                                   default_location = Raise e) :
  (initialize_clicked d).1 = Ok tt
  ∧ gemini_client (session (initialize_clicked d).2) = None
  ∧ chat_history (session (initialize_clicked d).2) = chat_history (session d)
  ∧ current_model (session (initialize_clicked d).2) = current_model (session d)
  ∧ StError ("Failed to initialize Gemini client: " +:+ str e)
    ∈ st_log (dashboard_world (initialize_clicked d).2).
Proof.
  rewrite (initialize_clicked_run d w1) by done. cbv zeta.
  rewrite Hinit, He. simpl. repeat split; try done. set_solver.
Qed.

End Session_properties.

(** * The configuration module *)

Lemma validate_config_run config w :
  validate_config config w
  = (Ok (truthy (default VNone (config !! "project_id"))),
     set_stdout
       (stdout w
        ++ [if truthy (default VNone (config !! "project_id"))
            then "✅ Configuration is valid"
            else "❌ Missing required configuration: project_id"])
       w).
Proof.
  unfold validate_config, required_fields, validate_fields.
  by destruct (truthy (default VNone (config !! "project_id"))).
Qed.

(** X19: the configuration the module starts with passes [validate_config]
    unless the environment sets [GOOGLE_CLOUD_PROJECT] to the empty string:
    an unset variable is replaced by the built-in project identifier, so a
    missing project is never reported. *)
Theorem initial_configuration_is_valid_unless_project_is_empty env w :
  (validate_config (DEFAULT_CONFIG env) w).1
  = Ok (negb (bool_decide (env !! "GOOGLE_CLOUD_PROJECT" = Some "")))
  ∧ (env !! "GOOGLE_CLOUD_PROJECT" = None →
     validate_config (DEFAULT_CONFIG env) w
     = (Ok true, set_stdout (stdout w ++ ["✅ Configuration is valid"]) w)).
Proof.
  rewrite validate_config_run.
  assert (Hproject : DEFAULT_CONFIG env !! "project_id"
                     = Some (VStr (getenv env "GOOGLE_CLOUD_PROJECT"
                                          "endless-codex-465716-v9"))).
  { unfold DEFAULT_CONFIG. rewrite !list_to_map_cons, list_to_map_nil.
    by simplify_map_eq. }
  rewrite Hproject. unfold getenv. simpl. split.
  - destruct (env !! "GOOGLE_CLOUD_PROJECT") as [project|] eqn:Henv; simpl.
    + destruct (String.eqb_spec project "") as [->|Hne]; [done|].
      rewrite bool_decide_eq_false_2; [done|congruence].
    + done.
  - by intros ->.
Qed.

(** X20: [update_config] overrides the keys it is given and keeps all
    others, removing none; so after an update [validate_config] judges the
    new project identifier when the update carries one, and the old one
    otherwise. *)
Theorem update_config_overrides_its_keys new_config config key w :
  get_config (update_config new_config config) !! key
  = match new_config !! key with
    | Some v => Some v
    | None => config !! key
    end
  ∧ dom config ⊆ dom (get_config (update_config new_config config))
  ∧ (validate_config (update_config new_config config) w).1
    = Ok (truthy (default VNone (match new_config !! "project_id" with
                                 | Some v => Some v
                                 | None => config !! "project_id"
                                 end))).
Proof.
  assert (Hlookup : ∀ k, (new_config ∪ config) !! k
                         = match new_config !! k with
                           | Some v => Some v
                           | None => config !! k
                           end).
  { intros k. rewrite lookup_union. by destruct (new_config !! k), (config !! k). }
  unfold get_config, update_config. split; [apply Hlookup|]. split.
  - rewrite dom_union. set_solver.
  - rewrite validate_config_run. simpl. by rewrite Hlookup.
Qed.

(** * The setup script *)

Section Setup_properties.
Context {sdk : VertexSDK}.

Lemma startswith_cons c d s prefix :
  startswith (String d s) (String c prefix) = Ascii.eqb c d && startswith s prefix.
Proof. reflexivity. Qed.

Lemma startswith_app prefix s : startswith (prefix +:+ s) prefix = true.
Proof.
  induction prefix as [|c prefix IH]; [done|].
  change (String c prefix +:+ s) with (String c (prefix +:+ s)).
  by rewrite startswith_cons, Ascii.eqb_refl, IH.
Qed.

(** X21: [test_setup] reads the adapter's answer by its first five letters:
    once the client is created, an exception raised by the service makes the
    test fail, because the error string of [generate_text] begins with
    "Error"; and an answer of the model passes the test exactly when it is
    not empty and does not itself begin with "Error". *)
Theorem test_setup_reads_the_error_prefix project_id w
    (Hproject : project_id ≠ "")
    (Hinit : vertexai_init_outcome (sdk_log w) project_id default_location = Ok tt) :
  let answer :=
    generate_content_outcome
      (sdk_log w ++ [VertexaiInit project_id default_location])
      (mkGenerativeModel "gemini-2.0-flash-exp")
      (ContentsStr "Hello, this is a test. Please respond briefly.")
      (generation_config_of {[ "max_output_tokens" := VInt 50 ]}) in
  (∀ e, isinstance_Exception e = true → answer = Raise e →
        (test_setup (Ok tt) (Some project_id) w).1 = Ok false)
  ∧ (∀ response, answer = Ok (mkResponse (Ok response)) →
        (test_setup (Ok tt) (Some project_id) w).1
        = Ok (negb (String.eqb response "") && negb (startswith response "Error"))).
Proof.
  intros answer. apply String.eqb_neq in Hproject.
  assert (Hrun : ∀ response,
            reply_of "Error generating text: " answer = Ok response →
            (test_setup (Ok tt) (Some project_id) w).1
            = Ok (negb (String.eqb response "") && negb (startswith response "Error"))).
  { intros response Hreply. unfold test_setup, try_except_W.
    unfold mbind, W_bind, print_line, lift_W, call_method, __init__. simpl.
    rewrite Hproject. simpl. rewrite Hinit. simpl.
    rewrite generate_text_run. simpl. fold answer. rewrite Hreply.
    by destruct (negb (String.eqb response "") && negb (startswith response "Error")). }
  split.
  - intros e He Hanswer.
    rewrite (Hrun ("Error generating text: " +:+ str e)).
    + change ("Error generating text: " +:+ str e)
        with ("Error" +:+ (" generating text: " +:+ str e)).
      rewrite startswith_app. by rewrite andb_false_r.
    + unfold reply_of. rewrite Hanswer. by apply isinstance_Exception_caught.
  - intros response Hanswer. apply Hrun. unfold reply_of. by rewrite Hanswer.
Qed.

(** X23: [test_setup] ends in a verdict: it raises no exception that is an
    instance of [Exception]; and when the import of [gemini_app] raises one,
    or [GOOGLE_CLOUD_PROJECT] is unset or empty, the verdict is [False] and
    the SDK has not been called. *)
Theorem test_setup_ends_in_a_verdict import_gemini_app project_id w :
  (∀ e, isinstance_Exception e = true →
        (test_setup import_gemini_app project_id w).1 ≠ Raise e)
  ∧ (∀ e, isinstance_Exception e = true → import_gemini_app = Raise e →
        (test_setup import_gemini_app project_id w).1 = Ok false
        ∧ sdk_log (test_setup import_gemini_app project_id w).2 = sdk_log w)
  ∧ (import_gemini_app = Ok tt → project_id = None ∨ project_id = Some "" →
        (test_setup import_gemini_app project_id w).1 = Ok false
        ∧ sdk_log (test_setup import_gemini_app project_id w).2 = sdk_log w).
Proof.
  split; [|split].
  - intros e He. unfold test_setup. unfold mbind at 1 2, W_bind at 1 2. simpl.
    unfold try_except_W.
    match goal with
    | |- context [match ?body ?w0 with _ => _ end] => destruct (body w0) as [[b|e'] w']
    end; [done|].
    destruct (isinstance_Exception e') eqn:He'; simpl; congruence.
  - intros e He ->. unfold test_setup, try_except_W.
    unfold mbind, W_bind, print_line, lift_W. simpl. by rewrite He.
  - intros -> Hproject. unfold test_setup, try_except_W.
    unfold mbind, W_bind, print_line, lift_W. simpl.
    by destruct Hproject as [-> | ->].
Qed.

End Setup_properties.

(** * Concrete runs of the further properties *)

Lemma rendering_st_renders : renders rendering_st.
Proof. by intros log c. Qed.


Lemma first_malformed_message_stops_chat_conversation_witness :
  chat_conversation (sdk := answering_sdk hello)
    [message_of "user" "Hi"; {[ "role" := "user" ]}; message_of "user" "Bye"] ∅ (state_of ∅)
  = (Ok "Error in chat conversation: 'content'", state_of ∅).
Proof.
  exact (first_malformed_message_stops_chat_conversation (sdk := answering_sdk hello)
           [message_of "user" "Hi"] {[ "role" := "user" ]} [message_of "user" "Bye"]
           ∅ (state_of ∅)
           ltac:(repeat constructor; by eexists)
           ltac:(intros [_ [c Hc]]; discriminate Hc)).
Defined.

Lemma last_message_is_sent_whatever_its_role_witness :
  sdk_log (world (chat_conversation (sdk := answering_sdk hello)
                    [message_of "user" "Hi"; message_of "assistant" "Hello!"] ∅
                    (state_of ∅)).2)
  = [SendMessage (start_chat (mkGenerativeModel "gemini-2.0-flash-exp")
                             [mkContent "user" [from_text "Hi"]])
                 "Hello!"].
Proof.
  rewrite (last_message_is_sent_whatever_its_role (sdk := answering_sdk hello)
             [message_of "user" "Hi"] (message_of "assistant" "Hello!") ∅ (state_of ∅)).
  - reflexivity.
  - repeat constructor; by eexists.
Defined.

Lemma other_keyword_arguments_are_dropped_witness :
  generate_text (sdk := answering_sdk hello) "Say hi"
    {[ "temperature" := VFloat 0.3; "stop_sequences" := VStr "END" ]} (state_of ∅)
  = generate_text (sdk := answering_sdk hello) "Say hi"
      {[ "temperature" := VFloat 0.3 ]} (state_of ∅).
Proof.
  apply (other_keyword_arguments_are_dropped (sdk := answering_sdk hello) "Say hi" []
           {[ "temperature" := VFloat 0.3; "stop_sequences" := VStr "END" ]}
           {[ "temperature" := VFloat 0.3 ]} (state_of ∅)).
  repeat constructor.
Defined.

Lemma last_selection_wins_witness :
  model (self (set_model "gemini-2.0-flash-exp"
                 (set_model "gemini-2.0-flash-thinking-exp" (state_of ∅)).2).2)
  = mkGenerativeModel "gemini-2.0-flash-exp".
Proof.
  apply (last_selection_wins "gemini-2.0-flash-thinking-exp" "gemini-2.0-flash-exp"
           (state_of ∅) eq_refl).
  - unfold supported_models. simpl. repeat constructor.
  - unfold supported_models. simpl. repeat constructor.
Defined.

Lemma service_is_asked_for_supported_models_only_witness :
  sdk_log (world (state_after (H := answering_sdk hello)
                    (CallGenerateText "Say hi" ∅) initial_state))
  = sdk_log (world initial_state)
  ∨ ∃ call model_name,
      model_name ∈ supported_models
      ∧ call_model call = Some (mkGenerativeModel model_name)
      ∧ sdk_log (world (state_after (H := answering_sdk hello)
                          (CallGenerateText "Say hi" ∅) initial_state))
        = sdk_log (world initial_state) ++ [call].
Proof.
  apply (service_is_asked_for_supported_models_only (sdk := answering_sdk hello)).
  by apply (reachable_init "demo-project" default_location (world_of ∅)).
Defined.

Lemma temporary_name_keeps_the_mime_type_witness :
  _get_mime_type "temp_holiday.photo.PNG" = _get_mime_type "holiday.photo.PNG".
Proof.
  apply (temporary_name_keeps_the_mime_type "holiday.photo.PNG"); reflexivity.
Defined.

(** A name that begins with a dot has no extension of its own, and gets one
    from the prefix. *)
Example hidden_upload_changes_its_mime_type :
  _get_mime_type ".png" = "image/jpeg" ∧ _get_mime_type "temp_.png" = "image/png".
Proof. split; reflexivity. Qed.

Lemma model_menu_accepts_zero_and_minus_one_witness :
  model (self (cli_switch_model "0" (Some 0) (state_of ∅)).2)
  = mkGenerativeModel "gemini-2.0-flash-thinking-exp"
  ∧ stdout (world (cli_switch_model "7" (Some 7) (state_of ∅)).2)
    = ["Available models:"; "1. gemini-2.0-flash-exp";
       "2. gemini-2.0-flash-thinking-exp"; "Enter model number: ";
       "Invalid model selection"].
Proof.
  split.
  - by rewrite (model_menu_accepts_zero_and_minus_one "0" (Some 0) (state_of ∅) eq_refl).
  - by rewrite (model_menu_accepts_zero_and_minus_one "7" (Some 7) (state_of ∅) eq_refl).
Defined.

Lemma failed_turn_enters_the_history_witness :
  (cli_chat_turn (sdk := answering_sdk (Raise service_unavailable)) [] "Hi" (state_of ∅)).1
  = Ok [message_of "user" "Hi";
        message_of "assistant"
          "Error in chat conversation: 503 failed to connect to all addresses"].
Proof.
  apply (failed_turn_enters_the_history (sdk := answering_sdk (Raise service_unavailable))
           [] "Hi" (state_of ∅) service_unavailable); by constructor.
Defined.

Lemma chat_loop_replays_the_history_witness :
  sdk_log (world (cli_chat_loop (sdk := answering_sdk hello) ["Hi"; "And then?"; "quit"] []
                    (state_of ∅)).2)
  = [SendMessage (start_chat (mkGenerativeModel "gemini-2.0-flash-exp") []) "Hi";
     SendMessage
       (start_chat (mkGenerativeModel "gemini-2.0-flash-exp")
          [mkContent "user" [from_text "Hi"]; mkContent "model" [from_text "Hello!"]])
       "And then?"].
Proof.
  exact (proj1 (chat_loop_replays_the_history (sdk := answering_sdk hello)
                  ["Hi"; "And then?"; "quit"] [] (state_of ∅)
                  [message_of "user" "Hi"; message_of "assistant" "Hello!";
                   message_of "user" "And then?"; message_of "assistant" "Hello!"]
                  ltac:(constructor) eq_refl)).
Defined.

Lemma success_is_announced_on_failure_witness :
  st_log (world (generate_text_clicked (sdk := answering_sdk (Raise service_unavailable))
                   (st := rendering_st) "Say hi" (VFloat 0.7) (VInt 2048) (VFloat 0.95)
                   (VInt 40) (state_of ∅)).2)
  = [StSpinner "Generating response..."; StSuccess "✅ Response generated!";
     StMarkdown "### Response:";
     StWrite "Error generating text: 503 failed to connect to all addresses"].
Proof.
  apply (success_is_announced_on_failure
           (sdk := answering_sdk (Raise service_unavailable)) (st := rendering_st)
           "Say hi" (VFloat 0.7) (VInt 2048) (VFloat 0.95) (VInt 40) (state_of ∅)
           service_unavailable rendering_st_renders).
  - discriminate.
  - reflexivity.
  - reflexivity.
Defined.

Lemma uploads_of_one_name_share_a_file_witness :
  sdk_log (world (analyze_images (sdk := answering_sdk hello) (st := rendering_st)
                    (os := willing_os)
                    same_name_uploads "What is shown?" (VFloat 0.7) (VInt 2048)
                    (VFloat 0.95) (VInt 40) (state_of ∅)).2)
  = [GenerateContent (mkGenerativeModel "gemini-2.0-flash-exp")
       (ContentsList [ItemStr "What is shown?";
                      ItemPart (from_data [x03] "image/png");
                      ItemPart (from_data [x02] "image/png");
                      ItemPart (from_data [x03] "image/png")])
       (generation_config_of
          (slider_kwargs (VFloat 0.7) (VInt 2048) (VFloat 0.95) (VInt 40)))].
Proof.
  pose (s0 := (st_do (st := rendering_st) (StSpinner "Analyzing images...") (state_of ∅)).2).
  rewrite (uploads_of_one_name_share_a_file (sdk := answering_sdk hello)
             (st := rendering_st) (os := willing_os) same_name_uploads "What is shown?"
             (VFloat 0.7) (VInt 2048) (VFloat 0.95) (VInt 40) (state_of ∅) s0
             ["temp_a.png"; "temp_b.png"; "temp_a.png"]
             (save_uploads (os := willing_os) same_name_uploads s0).2).
  - reflexivity.
  - discriminate.
  - discriminate.
  - reflexivity.
  - reflexivity.
Defined.

(** An upload whose name has a directory part is not saved when the
    directory is missing: the handler ends with the error of [open], and the
    service is not called. *)
Example upload_into_missing_directory_is_not_sent :
  let run := analyze_images (sdk := answering_sdk hello) (st := rendering_st)
               (os := parent_checking_os) [mkUploadedFile "sub/a.png" [x89; x50]]
               "What is shown?" (VFloat 0.7) (VInt 2048) (VFloat 0.95) (VInt 40)
               (state_of ∅) in
  run.1 = Raise (mkExn FileNotFoundError
                       "[Errno 2] No such file or directory: 'temp_sub/a.png'")
  ∧ sdk_log (world run.2) = [].
Proof. split; reflexivity. Qed.

Lemma chat_ignores_the_sliders_witness :
  sdk_log (dashboard_world
             (send_clicked (sdk := answering_sdk hello) (st := rendering_st)
                "And then?" (VFloat 0.1) (VInt 256) (VFloat 0.5) (VInt 1)
                switched_session).2)
  = [SendMessage
       (start_chat (mkGenerativeModel "gemini-2.0-flash-thinking-exp")
          [mkContent "user" [from_text "Hi"]; mkContent "model" [from_text "Hello!"]])
       "And then?"].
Proof.
  apply (chat_ignores_the_sliders (sdk := answering_sdk hello) (st := rendering_st)
           "And then?" (VFloat 0.1) (VInt 256) (VFloat 0.5) (VInt 1)
           (VFloat 0.7) (VInt 2048) (VFloat 0.95) (VInt 40) switched_session
           (with_model fresh_adapter "gemini-2.0-flash-thinking-exp")).
  - reflexivity.
  - repeat constructor; by eexists.
  - discriminate.
  - reflexivity.
Defined.

Lemma initialize_gemini_outcomes_witness :
  initialize_gemini (sdk := answering_sdk hello) (st := rendering_st)
    (credentials := no_credentials) "" (world_of ∅)
  = (Ok None,
     mkWorld ∅ [] [] [StError "Please enter your Google Cloud Project ID in the sidebar"]).
Proof.
  apply (initialize_gemini_outcomes (sdk := answering_sdk hello) (st := rendering_st)
           (credentials := no_credentials) "" (world_of ∅) rendering_st_renders).
  reflexivity.
Defined.

Lemma reinitialization_keeps_the_selection_only_witness :
  let d1 := (initialize_clicked (sdk := answering_sdk hello) (st := rendering_st)
               (credentials := no_credentials) switched_session).2 in
  (∃ client, gemini_client (session d1) = Some client
             ∧ model client = mkGenerativeModel "gemini-2.0-flash-exp")
  ∧ current_model (session d1) = "gemini-2.0-flash-thinking-exp".
Proof.
  destruct (reinitialization_keeps_the_selection_only (sdk := answering_sdk hello)
              (st := rendering_st) (credentials := no_credentials)
              switched_session (world_of ∅) rendering_st_renders)
    as (Hclient & Hcurrent & _).
  - discriminate.
  - reflexivity.
  - reflexivity.
  - split; [exact Hclient | exact Hcurrent].
Defined.

Lemma failed_initialization_drops_the_client_witness :
  gemini_client
    (session (initialize_clicked (sdk := refusing_sdk permission_denied)
                (st := rendering_st) (credentials := no_credentials) switched_session).2)
  = None.
Proof.
  apply (failed_initialization_drops_the_client (sdk := refusing_sdk permission_denied)
           (st := rendering_st) (credentials := no_credentials) switched_session
           (world_of ∅) permission_denied rendering_st_renders).
  - discriminate.
  - reflexivity.
  - reflexivity.
  - reflexivity.
Defined.

Lemma test_setup_reads_the_error_prefix_witness :
  (test_setup (sdk := answering_sdk (Ok (mkResponse (Ok "Error bars show the spread."))))
              (Ok tt) (Some "demo-project") (world_of ∅)).1
  = Ok false.
Proof.
  apply (proj2 (test_setup_reads_the_error_prefix
                  (sdk := answering_sdk (Ok (mkResponse (Ok "Error bars show the spread."))))
                  "demo-project" (world_of ∅) ltac:(discriminate) eq_refl)
               "Error bars show the spread.").
  reflexivity.
Defined.
